(** * Tree-measurement wizard: draft store, Step 1, Step 2 and Step 3 handlers

    A shallow embedding of the JavaScript sources

    - [src/app/TreeDataContext.jsx]  (the shared draft store),
    - [src/app/TreeDataForm.jsx]     (Step 1, [handleNext]),
    - [src/unnamed/part_000]         (Step 2, [BranchDetailsForm.handleNext]),
    - [src/unnamed/part_001]         (Step 3, two variants of
                                      [UploadScreen.handleSave]),

    followed by the properties of the multi-step form flow.

    Conventions of the embedding.

    - A JavaScript string is the list of its code units ([string]); code units
      above 255 are outside the model.
    - A JavaScript number is kept as the exact decimal it was read from
      ([number]); the engine holds the nearest double instead.  Underflow to
      zero and overflow to Infinity are applied when a number is read, and each
      comparison the handlers make ([<= 0], [< 1], truthiness, [isNaN]) is
      decided as it is on the double.
    - A handler runs to completion on the values its closure captured at
      render time; its effects (alerts, navigation, calls of the save service,
      writes to the store and to the component state) are threaded through a
      state-and-exception monad.  [console.log] and [console.error] output is
      not recorded. *)

From Stdlib Require Import ZArith NArith Ascii String List Bool Lia.
From Stdlib Require Import DecimalNat.
From stdpp Require Import base option gmap strings list fin_maps.

Local Open Scope string_scope.
Local Open Scope list_scope.

(** ** JavaScript numbers *)

Module Num.

(** [Dec neg m e] stands for [(-1)^neg * m * 10^e]. *)
Inductive number : Type :=
| NaN
| Infinity (neg : bool)
| Dec (neg : bool) (m : N) (e : Z).

Definition number_eqb (x y : number) : bool :=
  match x, y with
  | NaN, NaN => true
  | Infinity a, Infinity b => Bool.eqb a b
  | Dec a m e, Dec b m' e' => Bool.eqb a b && N.eqb m m' && Z.eqb e e'
  | _, _ => false
  end.

(** [dec_compare m e p q] compares [m * 10^e] with the fraction [p / q],
    for [q > 0]. *)
Definition dec_compare (m : N) (e : Z) (p q : Z) : comparison :=
  if (0 <=? e)%Z
  then (Z.of_N m * 10 ^ e * q ?= p)%Z
  else (Z.of_N m * q ?= p * 10 ^ (- e))%Z.

(** Rounding to the nearest double, ties to even, sends every magnitude up
    to [2^-1075] to zero and every magnitude from [2^1024 - 2^970] on to
    Infinity. *)
Definition underflows (m : N) (e : Z) : bool :=
  match dec_compare m e 1 (2 ^ 1075) with Gt => false | _ => true end.

Definition overflows (m : N) (e : Z) : bool :=
  match dec_compare m e (2 ^ 1024 - 2 ^ 970) 1 with Lt => false | _ => true end.

(** The number denoted by a decimal literal with sign [neg], digits [m] and
    decimal exponent [e]. *)
Definition of_decimal (neg : bool) (m : N) (e : Z) : number :=
  if underflows m e then Dec neg 0 0
  else if overflows m e then Infinity neg
  else Dec neg m e.

Definition of_nat (n : nat) : number := Dec false (N.of_nat n) 0.

(** [isNaN(x)] on a number. *)
Definition isNaN (x : number) : bool :=
  match x with NaN => true | _ => false end.

Definition is_zero (x : number) : bool :=
  match x with Dec _ m e => underflows m e | _ => false end.

(** JavaScript [x <= 0]. *)
Definition le0 (x : number) : bool :=
  match x with
  | NaN => false
  | Infinity neg => neg
  | Dec neg m e => neg || underflows m e
  end.

(** JavaScript [x < 1]: the double nearest to a positive decimal is below 1
    exactly when the decimal is below the midpoint [1 - 2^-54]. *)
Definition lt1 (x : number) : bool :=
  match x with
  | NaN => false
  | Infinity neg => neg
  | Dec neg m e =>
      neg || match dec_compare m e (2 ^ 54 - 1) (2 ^ 54) with Lt => true | _ => false end
  end.

(** A number is falsy when it is NaN, [+0] or [-0]. *)
Definition truthy (x : number) : bool :=
  negb (isNaN x) && negb (is_zero x).

End Num.

Export Num.

(** ** JavaScript strings *)

Module Str.

(** [StrWhiteSpaceChar] among the code units below 256: TAB, LF, VT, FF, CR,
    SP and NBSP. *)
Definition is_space (c : ascii) : bool :=
  let n := N_of_ascii c in
  ((9 <=? n) && (n <=? 13) || (n =? 32) || (n =? 160))%N.

Definition digit_of (c : ascii) : option N :=
  let n := N_of_ascii c in
  if ((48 <=? n) && (n <=? 57))%N then Some (n - 48)%N else None.

Definition is_digit (c : ascii) : bool :=
  match digit_of c with Some _ => true | None => false end.

Fixpoint trim_start (s : list ascii) : list ascii :=
  match s with
  | c :: r => if is_space c then trim_start r else s
  | [] => []
  end.

(** [String.prototype.trim]. *)
Definition trim (s : string) : string :=
  string_of_list_ascii
    (rev (trim_start (rev (trim_start (list_ascii_of_string s))))).

(** The longest run of decimal digits at the front of [s], as digit values,
    and what follows it. *)
Fixpoint span_digits (s : list ascii) : list N * list ascii :=
  match s with
  | c :: r =>
      match digit_of c with
      | Some d => let '(ds, rest) := span_digits r in (d :: ds, rest)
      | None => ([], s)
      end
  | [] => ([], [])
  end.

Definition digits_value_from (acc : N) (ds : list N) : N :=
  fold_left (fun a d => (a * 10 + d)%N) ds acc.

Definition digits_value (ds : list N) : N := digits_value_from 0 ds.

(** An optional sign at the front of [s]. *)
Definition read_sign (s : list ascii) : bool * list ascii :=
  match s with
  | "+"%char :: r => (false, r)
  | "-"%char :: r => (true, r)
  | _ => (false, s)
  end.

(** [ExponentPart]: [e] or [E], an optional sign and at least one digit;
    [0] when [s] does not start with one. *)
Definition exponent_part (s : list ascii) : Z :=
  match s with
  | c :: r =>
      if Ascii.eqb c "e" || Ascii.eqb c "E" then
        let '(neg, r') := read_sign r in
        match span_digits r' with
        | ([], _) => 0%Z
        | (ds, _) =>
            if neg then (- Z.of_N (digits_value ds))%Z
            else Z.of_N (digits_value ds)
        end
      else 0%Z
  | [] => 0%Z
  end.

(** [parseFloat] on a string: leading white space is skipped and the
    longest prefix that is a [StrDecimalLiteral] is read. *)
Definition parseFloat (s : string) : number :=
  let '(neg, u) := read_sign (trim_start (list_ascii_of_string s)) in
  if String.prefix "Infinity" (string_of_list_ascii u) then Infinity neg
  else
    let '(ip, r1) := span_digits u in
    let '(fp, r2) :=
      match r1 with
      | "."%char :: r => span_digits r
      | _ => ([], r1)
      end in
    match ip ++ fp with
    | [] => NaN
    | ds =>
        of_decimal neg (digits_value ds)
                   (exponent_part r2 - Z.of_nat (length fp))
    end.

(** [parseInt(s, 10)] on a string. *)
Definition parseInt10 (s : string) : number :=
  let '(neg, u) := read_sign (trim_start (list_ascii_of_string s)) in
  match span_digits u with
  | ([], _) => NaN
  | (ds, _) => of_decimal neg (digits_value ds) 0
  end.

End Str.

Export Str.

(** ** JavaScript values *)

#[warnings="-register-all"]
Inductive value : Type :=
| VUndefined
| VNull
| VBool (b : bool)
| VNum (n : number)
| VStr (s : string)
| VArr (l : list value)
| VObj (o : gmap string value).

(** An object literal, from its properties in source order (a later
    occurrence of a key wins, as in JavaScript). *)
Definition object (props : list (string * value)) : gmap string value :=
  fold_left (fun o kv => <[kv.1 := kv.2]> o) props ∅.

Module Conv.

Definition digit_char (d : N) : ascii := ascii_of_N (48 + d).

Fixpoint uint_digits (u : Decimal.uint) : list N :=
  match u with
  | Decimal.Nil => []
  | Decimal.D0 r => 0%N :: uint_digits r
  | Decimal.D1 r => 1%N :: uint_digits r
  | Decimal.D2 r => 2%N :: uint_digits r
  | Decimal.D3 r => 3%N :: uint_digits r
  | Decimal.D4 r => 4%N :: uint_digits r
  | Decimal.D5 r => 5%N :: uint_digits r
  | Decimal.D6 r => 6%N :: uint_digits r
  | Decimal.D7 r => 7%N :: uint_digits r
  | Decimal.D8 r => 8%N :: uint_digits r
  | Decimal.D9 r => 9%N :: uint_digits r
  end.

Definition digits_string (ds : list N) : string :=
  string_of_list_ascii (map digit_char ds).

(** The decimal digits of a natural number, most significant first
    (["0"] for zero). *)
Definition nat_digits (n : nat) : list N := uint_digits (Nat.to_uint n).

Definition nat_to_string (n : nat) : string := digits_string (nat_digits n).

Fixpoint strip_zeros (ds : list N) : list N :=
  match ds with
  | 0%N :: r => strip_zeros r
  | _ => ds
  end.

Definition zeros (n : nat) : list N := repeat 0%N n.

(** [Number::toString] for a positive finite number whose significant
    digits are [ds] (no leading and no trailing zero) and whose value is
    [0.ds * 10^n]. *)
Definition positive_to_string (ds : list N) (n : Z) : string :=
  let k := Z.of_nat (length ds) in
  if ((k <=? n) && (n <=? 21))%Z then
    digits_string (ds ++ zeros (Z.to_nat (n - k)))
  else if ((0 <? n) && (n <=? 21))%Z then
    digits_string (firstn (Z.to_nat n) ds) +:+ "." +:+
    digits_string (skipn (Z.to_nat n) ds)
  else if ((-6 <? n) && (n <=? 0))%Z then
    "0." +:+ digits_string (zeros (Z.to_nat (- n)) ++ ds)
  else
    let ex := (if (0 <=? n - 1)%Z then "+" else "-") +:+
              nat_to_string (Z.to_nat (Z.abs (n - 1))) in
    match ds with
    | [d] => digits_string [d] +:+ "e" +:+ ex
    | _ => digits_string (firstn 1 ds) +:+ "." +:+
           digits_string (skipn 1 ds) +:+ "e" +:+ ex
    end.

(** [Number::toString]. *)
Definition number_to_string (x : number) : string :=
  match x with
  | NaN => "NaN"
  | Infinity neg => if neg then "-Infinity" else "Infinity"
  | Dec neg m e =>
      if underflows m e then "0"
      else
        let all := strip_zeros (uint_digits (N.to_uint m)) in
        let ds := rev (strip_zeros (rev all)) in
        let n := (Z.of_nat (length all) + e)%Z in
        (if neg then "-" else "") +:+ positive_to_string ds n
  end.

Fixpoint join (sep : string) (l : list string) : string :=
  match l with
  | [] => ""
  | [s] => s
  | s :: r => s +:+ sep +:+ join sep r
  end.

(** [ToString]; an array is joined with commas, [null] and [undefined]
    elements giving the empty string. *)
Fixpoint ToString (v : value) : string :=
  match v with
  | VUndefined => "undefined"
  | VNull => "null"
  | VBool b => if b then "true" else "false"
  | VNum n => number_to_string n
  | VStr s => s
  | VArr l =>
      join ","
        ((fix elems (l : list value) : list string :=
            match l with
            | [] => []
            | VUndefined :: r => "" :: elems r
            | VNull :: r => "" :: elems r
            | x :: r => ToString x :: elems r
            end) l)
  | VObj _ => "[object Object]"
  end.

(** [ToBoolean]. *)
Definition truthy (v : value) : bool :=
  match v with
  | VUndefined | VNull => false
  | VBool b => b
  | VNum n => Num.truthy n
  | VStr s => negb (String.eqb s "")
  | VArr _ | VObj _ => true
  end.

(** [a || b] on values. *)
Definition or_else (a b : value) : value := if truthy a then a else b.

(** [parseFloat(v)] and [parseInt(v, 10)] convert their argument to a
    string first. *)
Definition parseFloat (v : value) : number := Str.parseFloat (ToString v).
Definition parseInt10 (v : value) : number := Str.parseInt10 (ToString v).

(** [Array.isArray]. *)
Definition isArray (v : value) : bool :=
  match v with VArr _ => true | _ => false end.

Definition is_null (v : value) : bool :=
  match v with VNull => true | _ => false end.

(** Reading a destructured or looked-up key of an object: [undefined] when
    the key is missing. *)
Definition field (o : gmap string value) (k : string) : value :=
  default VUndefined (o !! k).

End Conv.

Export Conv.

(** ** The draft store ([TreeDataContext.jsx])

    The store is the state [treeData] of [TreeDataProvider]: an object, kept as
    a finite map from property names to values. *)

Definition initialTreeData : gmap string value :=
  object [("treeId", VStr ""); ("numBranches", VNum (Dec false 0 0));
          ("stemData", VArr []); ("studentName", VStr "");
          ("studentRollNo", VStr ""); ("studentGroup", VStr "");
          ("isAdmin", VBool false)].

(** The object spread [{...prevData, ...newData}]: the keys of both, those of
    [newData] taking precedence. *)
Definition spread (prevData newData : gmap string value) : gmap string value :=
  newData ∪ prevData.

(** ** Effects of a handler *)

Inductive event : Type :=
| Alert (title : string) (message : value) (buttons : list string)
| Navigate (name : string) (params : value)
| NavigationReset (index : nat) (routes : list string)
| SaveTreeData (data : gmap string value) (img : value).

(** What a handler can change: the draft store, the [image] and [loading]
    state of the upload screen, and the trace of what it showed, where it
    navigated and which service calls it made (oldest first). *)
Record world : Type := World {
  treeData : gmap string value;
  image : value;
  loading : bool;
  trace : list event
}.

Inductive outcome (A : Type) : Type :=
| Return (a : A)
| Throw (e : value).

Arguments Return {A} a.
Arguments Throw {A} e.

(** What lies outside the sources: the error objects the engine throws, the
    save service, the key-value storage, the JSON parser and the image picker.
    An awaited call either resolves ([Return]) or rejects ([Throw]). *)
Record engine : Type := Engine {
  TypeError : value -> string -> value;
  ReferenceError : string -> value;
  saveTreeData_service : gmap string value -> value -> outcome unit;
  AsyncStorage_getItem : string -> outcome value;
  JSON_parse : string -> outcome value;
  launchImageLibraryAsync : outcome value;
  requestCameraPermissionsAsync : outcome value;
  launchCameraAsync : outcome value
}.

Definition M (A : Type) : Type := world -> outcome A * world.

Definition ret {A : Type} (a : A) : M A := fun w => (Return a, w).

Definition throw {A : Type} (e : value) : M A := fun w => (Throw e, w).

Definition bind {A B : Type} (m : M A) (f : A -> M B) : M B :=
  fun w =>
    match m w with
    | (Return a, w') => f a w'
    | (Throw e, w') => (Throw e, w')
    end.

Declare Scope js_scope.
Delimit Scope js_scope with js.
Notation "x <- m ;; k" := (bind m (fun x => k))
  (at level 100, m at next level, right associativity) : js_scope.
Notation "m ;; k" := (bind m (fun _ => k))
  (at level 100, right associativity) : js_scope.
Local Open Scope js_scope.

(** [try { m } catch (error) { h error }]. *)
Definition try_catch {A : Type} (m : M A) (h : value -> M A) : M A :=
  fun w =>
    match m w with
    | (Return a, w') => (Return a, w')
    | (Throw e, w') => h e w'
    end.

(** [try { m } finally { f }]: [f] runs however [m] ends; its own exception
    replaces the outcome of [m]. *)
Definition try_finally {A : Type} (m : M A) (f : M unit) : M A :=
  fun w =>
    let '(r, w1) := m w in
    match f w1 with
    | (Return _, w2) => (r, w2)
    | (Throw e, w2) => (Throw e, w2)
    end.

(** An awaited call of something outside the sources. *)
Definition await {A : Type} (r : outcome A) : M A := fun w => (r, w).

Definition emit (e : event) : M unit :=
  fun w => (Return tt, World (treeData w) (image w) (loading w) (trace w ++ [e])).

Definition setLoading (b : bool) : M unit :=
  fun w => (Return tt, World (treeData w) (image w) b (trace w)).

Definition setImage (v : value) : M unit :=
  fun w => (Return tt, World (treeData w) v (loading w) (trace w)).

Definition setTreeData (f : gmap string value -> gmap string value) : M unit :=
  fun w => (Return tt, World (f (treeData w)) (image w) (loading w) (trace w)).

(** [updateTreeData] and [resetTreeData] of [TreeDataProvider]. *)
Definition updateTreeData (newData : gmap string value) : M unit :=
  setTreeData (fun prevData => spread prevData newData).

Definition resetTreeData : M unit :=
  setTreeData (fun _ => initialTreeData).

(** [Alert.alert(title, message)] and [Alert.alert(title, message, buttons)];
    the buttons are recorded by their [text]. *)
Definition Alert_alert (title : string) (message : value) : M unit :=
  emit (Alert title message []).

Definition Alert_alert_buttons (title : string) (message : value)
    (buttons : list string) : M unit :=
  emit (Alert title message buttons).

Definition navigate (name : string) (params : value) : M unit :=
  emit (Navigate name params).

Definition navigation_reset (index : nat) (routes : list string) : M unit :=
  emit (NavigationReset index routes).

(** [v === null || v === undefined]. *)
Definition nullish (v : value) : bool :=
  match v with VUndefined | VNull => true | _ => false end.

(** [v?.k], for the property names the handlers read (none of them is defined
    on a string, a number, a boolean or an array). *)
Definition get_optional (v : value) (k : string) : value :=
  match v with
  | VObj o => field o k
  | _ => VUndefined
  end.

Section Engine.

Variable E : engine.

(** [saveTreeData(data, image)] of [./services/treeService]. *)
Definition saveTreeData (data : gmap string value) (img : value) : M unit :=
  emit (SaveTreeData data img) ;; await (saveTreeData_service E data img).

(** Reading property [k] of [v]: a [TypeError] on [null] and [undefined]. *)
Definition get (v : value) (k : string) : M value :=
  if nullish v then throw (TypeError E v k) else ret (get_optional v k).

(** Evaluating the identifier [x] where [scope] lists the identifiers that
    are declared and [v] is what [x] is bound to. *)
Definition resolve (scope : list string) (x : string) (v : value) : M value :=
  if bool_decide (x ∈ scope) then ret v else throw (ReferenceError E x).

(** [v[0]]. *)
Definition get_first (v : value) : M value :=
  match v with
  | VUndefined | VNull => throw (TypeError E v "0")
  | VArr l => ret (default VUndefined (l !! 0%nat))
  | VObj o => ret (field o "0")
  | VStr s => ret (match s with
                   | String c _ => VStr (String c EmptyString)
                   | EmptyString => VUndefined
                   end)
  | VBool _ | VNum _ => ret VUndefined
  end.

End Engine.

(** The values a handler closed over when the component was rendered. *)
Definition read_treeData : M (gmap string value) :=
  fun w => (Return (treeData w), w).

Definition read_image : M value := fun w => (Return (image w), w).

(** ** Step 1: [TreeDataForm] ([TreeDataForm.jsx]) *)

Module TreeDataForm.

(** [handleNext], on the texts [treeId] and [numBranches] of the two inputs. *)
Definition handleNext (treeId numBranches : string) : M unit :=
  treeData <- read_treeData ;;
  if negb (truthy (VStr treeId)) || negb (truthy (VStr numBranches)) then
    Alert_alert "Error" (VStr "All fields are required!")
  else
    let studentName := field treeData "studentName" in
    let studentRollNo := field treeData "studentRollNo" in
    let studentGroup := field treeData "studentGroup" in
    let branchesNum := Str.parseInt10 numBranches in
    if isNaN branchesNum || lt1 branchesNum then
      Alert_alert "Error"
        (VStr "Please enter a valid number of branches (must be at least 1)")
    else
      updateTreeData
        (object [("treeId", VStr treeId); ("numBranches", VNum branchesNum);
                 ("studentName", studentName);
                 ("studentRollNo", studentRollNo);
                 ("studentGroup", studentGroup)]) ;;
      navigate "BranchDetailsForm"
        (VObj (object [("treeId", VStr treeId); ("branches", VNum branchesNum);
                       ("studentName", studentName);
                       ("studentRollNo", studentRollNo);
                       ("studentGroup", studentGroup)])).

(** [text.replace(/[^0-9]/g, '')]. *)
Definition digits_only (text : string) : string :=
  string_of_list_ascii (List.filter is_digit (list_ascii_of_string text)).

(** [onChangeText] of the branch-count input: the new text of the input,
    given the current one.  [parseInt(intValue)] is called without a radix;
    [intValue] holds digits only, which it reads in base 10. *)
Definition onChangeNumBranches (numBranches text : string) : string :=
  let intValue := digits_only text in
  if String.eqb intValue "" || negb (isNaN (Str.parseInt10 intValue))
  then intValue else numBranches.

(** The effect that fills the inputs from the store: the new [treeId] and
    [numBranches] texts. *)
Definition useEffect_init (treeData : gmap string value) : value * value :=
  (or_else (field treeData "treeId") (VStr ""),
   if truthy (field treeData "numBranches")
   then VStr (ToString (field treeData "numBranches")) else VStr "").

End TreeDataForm.

(** ** Step 2: [BranchDetailsForm] ([part_000]) *)

Module BranchDetailsForm.

(** One entry of the [stemData] state: the texts of its two inputs. *)
Record stem : Type := Stem { stem_height : string; stem_diameter : string }.

(** The callback of [stemData.map] in [handleNext]: [null] after an alert, or
    the parsed entry. *)
Definition validate (s : stem) (index : nat) : M value :=
  let height := Str.parseFloat (stem_height s) in
  let diameter := Str.parseFloat (stem_diameter s) in
  if negb (truthy (VStr (stem_height s)))
     || String.eqb (trim (stem_height s)) "" then
    Alert_alert "Error"
      (VStr ("Please enter height for Primary Stem "
             +:+ nat_to_string (index + 1))) ;;
    ret VNull
  else if negb (truthy (VStr (stem_diameter s)))
          || String.eqb (trim (stem_diameter s)) "" then
    Alert_alert "Error"
      (VStr ("Please enter diameter for Primary Stem "
             +:+ nat_to_string (index + 1))) ;;
    ret VNull
  else if isNaN height || le0 height then
    Alert_alert "Error"
      (VStr ("Please enter a valid height for Primary Stem "
             +:+ nat_to_string (index + 1))) ;;
    ret VNull
  else if isNaN diameter || le0 diameter then
    Alert_alert "Error"
      (VStr ("Please enter a valid diameter for Primary Stem "
             +:+ nat_to_string (index + 1))) ;;
    ret VNull
  else
    ret (VObj (object [("height", VNum height); ("diameter", VNum diameter)])).

(** [Array.prototype.map] with an effectful callback, from index [index] on. *)
Fixpoint map_from {A B : Type} (f : A -> nat -> M B) (l : list A) (index : nat)
  : M (list B) :=
  match l with
  | [] => ret []
  | x :: r =>
      y <- f x index ;;
      ys <- map_from f r (S index) ;;
      ret (y :: ys)
  end.

(** [validatedData.includes(null)]. *)
Definition includes_null (l : list value) : bool := existsb is_null l.

(** [handleNext], on the route parameters and the [stemData] state. *)
Definition handleNext (treeId branches studentName studentRollNo studentGroup : value)
    (stemData : list stem) : M unit :=
  if negb (truthy treeId) || negb (truthy branches) then
    Alert_alert "Error"
      (VStr "Please enter all required details before proceeding.")
  else
    validatedData <- map_from validate stemData 0 ;;
    if includes_null validatedData then ret tt
    else
      updateTreeData
        (object [("treeId", treeId); ("numBranches", branches);
                 ("stemData", VArr validatedData);
                 ("studentName", studentName);
                 ("studentRollNo", studentRollNo);
                 ("studentGroup", studentGroup)]) ;;
      navigate "UploadScreen"
        (VObj (object [("treeId", treeId); ("branches", branches);
                       ("stemData", VArr validatedData);
                       ("studentName", studentName);
                       ("studentRollNo", studentRollNo);
                       ("studentGroup", studentGroup)])).

(** The initial [stemData] state, [Array(branches).fill().map(...)], for a
    count [branches] that is a valid array length. *)
Definition initial_stemData (branches : nat) : list stem :=
  map (fun _ => Stem "" "") (repeat VUndefined branches).

Inductive stem_field : Type := Height | Diameter.

Definition set_field (s : stem) (f : stem_field) (v : string) : stem :=
  match f with
  | Height => Stem v (stem_diameter s)
  | Diameter => Stem (stem_height s) v
  end.

(** [updateStemData(index, field, value)]: the new [stemData].  The inputs
    rendered by [stemData.map] call it at an index of the list; at any other
    index the source would extend the array by an entry with one field, which
    is not a [stem], and the result is [None]. *)
Definition updateStemData (stemData : list stem) (index : nat) (f : stem_field)
    (v : string) : option (list stem) :=
  match stemData !! index with
  | Some s => Some (<[index := set_field s f v]> stemData)
  | None => None
  end.



End BranchDetailsForm.

(** ** Step 3: the two [UploadScreen] components ([part_001]) *)

(** The elements of an array. *)
Definition elements (v : value) : list value :=
  match v with VArr l => l | _ => [] end.

(** [status !== 'granted']. *)
Definition not_granted (status : value) : bool :=
  match status with
  | VStr s => negb (String.eqb s "granted")
  | _ => true
  end.

Section UploadScreen.

Variable E : engine.

(** [pickImage] and [takePhoto] are the same in both components. *)
Definition pickImage : M unit :=
  try_catch
    (result <- await (launchImageLibraryAsync E) ;;
     canceled <- get E result "canceled" ;;
     if negb (truthy canceled) then
       assets <- get E result "assets" ;;
       asset <- get_first E assets ;;
       uri <- get E asset "uri" ;;
       setImage uri
     else ret tt)
    (fun error => Alert_alert "Error" (VStr "Failed to access photo library")).

Definition takePhoto : M unit :=
  try_catch
    (permission <- await (requestCameraPermissionsAsync E) ;;
     status <- get E permission "status" ;;
     if not_granted status then
       Alert_alert "Permission denied"
         (VStr "Camera permission is required to take photos")
     else
       result <- await (launchCameraAsync E) ;;
       canceled <- get E result "canceled" ;;
       if negb (truthy canceled) then
         assets <- get E result "assets" ;;
         asset <- get_first E assets ;;
         uri <- get E asset "uri" ;;
         setImage uri
       else ret tt)
    (fun error => Alert_alert "Error" (VStr "Failed to access camera")).

(** The [catch] block of both [handleSave]s. *)
Definition catch_handleSave (error : value) : M unit :=
  message <- get E error "message" ;;
  Alert_alert "Error" (or_else message (VStr "Failed to save data")).

End UploadScreen.

(** *** The parameter-based component (lines 58-234) *)

Module UploadScreenParams.

(** A key of [route.params || {}]. *)
Definition param (params : value) (k : string) : value :=
  get_optional (or_else params (VObj ∅)) k.

(** The [for] loop over [branchDiameters]: the index of the first element
    that [parseFloat] does not read, from index [i] on. *)
Fixpoint first_unparsed (l : list value) (i : nat) : option nat :=
  match l with
  | [] => None
  | d :: r => if isNaN (parseFloat d) then Some i else first_unparsed r (S i)
  end.

Section Handlers.

Variable E : engine.

(** [handleSave], on [route.params] and [auth.currentUser].  [context] is the
    value of [TreeDataProvider], so [context && context.resetTreeData] holds. *)
Definition handleSave (params currentUser : value) : M unit :=
  image <- read_image ;;
  context_treeData <- read_treeData ;;
  let treeId := param params "treeId" in
  let height := param params "height" in
  let branches := param params "branches" in
  let branchDiameters := param params "branchDiameters" in
  let mainBranchDiameter := param params "mainBranchDiameter" in
  if negb (truthy image) then
    Alert_alert "Error" (VStr "Please upload an image before saving.")
  else
    try_finally
      (try_catch
         (setLoading true ;;
          if negb (truthy height) || isNaN (parseFloat height) then
            Alert_alert "Error" (VStr "Please enter a valid height") ;;
            setLoading false
          else if negb (truthy mainBranchDiameter)
                  || isNaN (parseFloat mainBranchDiameter) then
            Alert_alert "Error" (VStr "Please enter a valid main branch diameter") ;;
            setLoading false
          else if negb (truthy branchDiameters) || negb (isArray branchDiameters)
                  || (length (elements branchDiameters) =? 0)%nat then
            Alert_alert "Error" (VStr "Please enter valid branch diameters") ;;
            setLoading false
          else
            match first_unparsed (elements branchDiameters) 0 with
            | Some i =>
                Alert_alert "Error"
                  (VStr ("Please enter a valid diameter for branch "
                         +:+ nat_to_string (i + 1))) ;;
                setLoading false
            | None =>
                let data :=
                  object
                    [("treeId", or_else treeId (VStr ""));
                     ("height", VNum (parseFloat height));
                     ("numBranches", VNum (parseInt10 branches));
                     ("branchDiameters",
                      VArr (map (fun d => VNum (parseFloat d))
                                (elements branchDiameters)));
                     ("mainBranchDiameter", VNum (parseFloat mainBranchDiameter));
                     ("studentName",
                      or_else (field context_treeData "studentName") (VStr ""));
                     ("studentRollNo",
                      or_else (field context_treeData "studentRollNo") (VStr ""));
                     ("studentGroup",
                      or_else (field context_treeData "studentGroup") (VStr ""));
                     ("userEmail",
                      or_else (get_optional currentUser "email") (VStr ""))] in
                saveTreeData E data image ;;
                resetTreeData ;;
                Alert_alert_buttons "Success" (VStr "Tree data has been saved!")
                  ["OK"]
            end)
         (catch_handleSave E))
      (setLoading false).

(** [onPress] of the OK button of the success alert. *)
Definition onPress_OK : M unit := navigation_reset 0 ["TreeDataForm"].

End Handlers.

End UploadScreenParams.

(** *** The store-based component (lines 294-444) *)

Module UploadScreenStore.

(** The identifiers declared where the success alert of [handleSave] is
    built: the imports, the styled components, the component's constants and
    those of [handleSave]. *)
Definition declared : list string :=
  ["React"; "useState"; "useEffect"; "View"; "Text"; "TouchableOpacity";
   "Image"; "Alert"; "ActivityIndicator"; "ImagePicker"; "styled";
   "saveTreeData"; "useRoute"; "useNavigation"; "useTreeData"; "auth";
   "supabase"; "useAuth"; "AsyncStorage"; "Container"; "Card";
   "UploadButton"; "UploadText"; "Button"; "ButtonText"; "UploadScreen";
   "image"; "setImage"; "loading"; "setLoading"; "route"; "navigation";
   "treeData"; "currentUser"; "handleSave"; "pickImage"; "takePhoto";
   "storedDetails"; "studentDetails"; "dataToSave"].

Section Handlers.

Variable E : engine.

(** [handleSave], on [currentUser] of [useAuth()]. *)
Definition handleSave (currentUser : value) : M unit :=
  image <- read_image ;;
  treeData <- read_treeData ;;
  try_finally
    (try_catch
       (setLoading true ;;
        if negb (truthy image) then
          Alert_alert "Error" (VStr "Please upload an image before saving.")
        else
          email <- get E currentUser "email" ;;
          storedDetails <-
            await (AsyncStorage_getItem E ("studentDetails_" +:+ ToString email)) ;;
          if negb (truthy storedDetails) then
            Alert_alert "Error"
              (VStr "Student details not found. Please complete student details first.") ;;
            navigate "StudentDetails" VUndefined
          else
            studentDetails <- await (JSON_parse E (ToString storedDetails)) ;;
            if negb (truthy (VObj treeData))
               || negb (truthy (field treeData "stemData"))
               || negb (isArray (field treeData "stemData")) then
              Alert_alert "Error"
                (VStr "Invalid or missing stem data. Please go back and enter the measurements again.")
            else
              studentName <- get E studentDetails "studentName" ;;
              studentRollNo <- get E studentDetails "studentRollNo" ;;
              studentGroup <- get E studentDetails "studentGroup" ;;
              userEmail <- get E currentUser "email" ;;
              let dataToSave :=
                object [("treeId", field treeData "treeId");
                        ("numBranches", field treeData "numBranches");
                        ("stemData", field treeData "stemData");
                        ("studentName", studentName);
                        ("studentRollNo", studentRollNo);
                        ("studentGroup", studentGroup);
                        ("userEmail", userEmail)] in
              saveTreeData E dataToSave image ;;
              Alert_alert_buttons "Success" (VStr "Tree data has been saved!")
                ["OK"])
       (catch_handleSave E))
    (setLoading false).

(** [onPress] of the OK button of the success alert: it evaluates the
    identifier [context]. *)
Definition onPress_OK (context : value) : M unit :=
  context <- resolve E declared "context" context ;;
  (if truthy (get_optional context "resetTreeData") then resetTreeData
   else ret tt) ;;
  navigation_reset 0 ["TreeDataForm"].

End Handlers.

End UploadScreenStore.

(** The two [UploadScreen] components. *)
Inductive variant : Type := ParameterBased | StoreBased.

(** [handleSave] of either component. *)
Definition handleSave_of (v : variant) (E : engine) (params currentUser : value)
  : M unit :=
  match v with
  | ParameterBased => UploadScreenParams.handleSave E params currentUser
  | StoreBased => UploadScreenStore.handleSave E currentUser
  end.

(** An error object with the given [name] and [message]. *)
Definition error_object (name message : string) : value :=
  VObj (object [("name", VStr name); ("message", VStr message)]).

(** An engine for the examples: the save service ends as [saved] says, the
    storage holds [stored] under every key, [JSON.parse] gives [details], and
    the image picker and the camera give [picked]. *)
Definition engine_with (saved : outcome unit) (stored details picked : value)
  : engine :=
  Engine (fun _ k => error_object "TypeError" ("Cannot read property " +:+ k))
         (fun x => error_object "ReferenceError" (x +:+ " is not defined"))
         (fun _ _ => saved)
         (fun _ => Return stored)
         (fun _ => Return details)
         (Return picked)
         (Return (VObj (object [("status", VStr "granted")])))
         (Return picked).

(** A store as Steps 1 and 2 leave it, for the examples. *)
Definition sample_store : gmap string value :=
  spread initialTreeData
    (object [("treeId", VStr "T1"); ("numBranches", VNum (Dec false 1 0));
             ("stemData",
              VArr [VObj (object [("height", VNum (Dec false 25 (-1)));
                                  ("diameter", VNum (Dec false 30 0))])])]).

(** ** Reasoning about a handler

    [post m w Q]: running [m] from [w] ends in an outcome and a state that
    satisfy [Q]. *)
Definition post {A : Type} (m : M A) (w : world)
    (Q : outcome A * world -> Prop) : Prop :=
  Q (m w).

(** The state in which the application starts: the default store, no image,
    not loading, and nothing done yet. *)
Definition initial_world : world := World initialTreeData VNull false [].

(** [e] is an alert. *)
Definition is_alert (e : event) : bool :=
  match e with Alert _ _ _ => true | _ => false end.

(** [e] is a call of the save service. *)
Definition is_save (e : event) : bool :=
  match e with SaveTreeData _ _ => true | _ => false end.

(** ** Step 2, entry by entry

    The same four checks as in [BranchDetailsForm.validate], as a function of
    the entry alone. *)

Module Step2.
Import BranchDetailsForm.

(** The message of the first of the four checks that entry [s] fails, without
    the index; [None] when it passes all four. *)
Definition first_failing_check (s : stem) : option string :=
  if String.eqb (stem_height s) "" || String.eqb (trim (stem_height s)) "" then
    Some "Please enter height for Primary Stem "
  else if String.eqb (stem_diameter s) ""
          || String.eqb (trim (stem_diameter s)) "" then
    Some "Please enter diameter for Primary Stem "
  else if isNaN (Str.parseFloat (stem_height s))
          || le0 (Str.parseFloat (stem_height s)) then
    Some "Please enter a valid height for Primary Stem "
  else if isNaN (Str.parseFloat (stem_diameter s))
          || le0 (Str.parseFloat (stem_diameter s)) then
    Some "Please enter a valid diameter for Primary Stem "
  else None.

Definition passes (s : stem) : bool :=
  match first_failing_check s with None => true | Some _ => false end.

(** The numeric entry made from the two texts of [s]. *)
Definition parsed (s : stem) : value :=
  VObj (object [("height", VNum (Str.parseFloat (stem_height s)));
                ("diameter", VNum (Str.parseFloat (stem_diameter s)))]).

(** One alert for each entry that fails a check, naming its first failing
    check and its position counted from [index + 1], in the order of the
    entries. *)
Fixpoint reports (l : list stem) (index : nat) : list event :=
  match l with
  | [] => []
  | s :: r =>
      match first_failing_check s with
      | Some msg =>
          Alert "Error" (VStr (msg +:+ nat_to_string (index + 1))) []
          :: reports r (S index)
      | None => reports r (S index)
      end
  end.

Definition validated (s : stem) : value :=
  if passes s then parsed s else VNull.

End Step2.

(** ** Texts made of digits *)

(** The digit values of a list of characters (those that are digits). *)
Definition digit_values (cs : list ascii) : list N :=
  omap digit_of cs.

(** ** Texts of the Step 2 inputs *)

(** A text that is empty or that [parseFloat] reads. *)
Definition parseable (t : string) : bool :=
  String.eqb t "" || negb (isNaN (Str.parseFloat t)).

(** A text of digits and dots. *)
Definition numeric_text (t : string) : bool :=
  forallb (fun c => is_digit c || Ascii.eqb c ".") (list_ascii_of_string t).

Definition entry_ok (s : BranchDetailsForm.stem) : bool :=
  parseable (BranchDetailsForm.stem_height s) && numeric_text (BranchDetailsForm.stem_height s)
  && parseable (BranchDetailsForm.stem_diameter s) && numeric_text (BranchDetailsForm.stem_diameter s).

(** A committed entry: an object whose [height] and [diameter] are numbers
    above zero. *)
Definition positive_entry (e : value) : Prop :=
  exists h d : number,
    get_optional e "height" = VNum h /\ get_optional e "diameter" = VNum d /\
    isNaN h = false /\ le0 h = false /\ isNaN d = false /\ le0 d = false.

(** ** The records passed to the save service *)

(** The object [treeData] built by the parameter-based [handleSave] (lines
    161-173), from [route.params], [auth.currentUser] and the store. *)
Definition params_record (params currentUser : value)
    (context_treeData : gmap string value) : gmap string value :=
  object
    [("treeId", or_else (UploadScreenParams.param params "treeId") (VStr ""));
     ("height", VNum (parseFloat (UploadScreenParams.param params "height")));
     ("numBranches",
      VNum (parseInt10 (UploadScreenParams.param params "branches")));
     ("branchDiameters",
      VArr (map (fun d => VNum (parseFloat d))
                (elements (UploadScreenParams.param params "branchDiameters"))));
     ("mainBranchDiameter",
      VNum (parseFloat (UploadScreenParams.param params "mainBranchDiameter")));
     ("studentName", or_else (field context_treeData "studentName") (VStr ""));
     ("studentRollNo",
      or_else (field context_treeData "studentRollNo") (VStr ""));
     ("studentGroup", or_else (field context_treeData "studentGroup") (VStr ""));
     ("userEmail", or_else (get_optional currentUser "email") (VStr ""))].

(** The object [dataToSave] built by the store-based [handleSave] (lines
    327-335), from the store, the parsed student details and [currentUser]. *)
Definition store_record (treeData : gmap string value)
    (studentDetails currentUser : value) : gmap string value :=
  object [("treeId", field treeData "treeId");
          ("numBranches", field treeData "numBranches");
          ("stemData", field treeData "stemData");
          ("studentName", get_optional studentDetails "studentName");
          ("studentRollNo", get_optional studentDetails "studentRollNo");
          ("studentGroup", get_optional studentDetails "studentGroup");
          ("userEmail", get_optional currentUser "email")].

(** What is left of a [handleSave] whose save call was rejected with
    [error]: the outcome of the [catch] block and the alert it shows. *)
Definition rejection_outcome (E : engine) (error : value) : outcome unit :=
  if nullish error then Throw (TypeError E error "message") else Return tt.

Definition rejection_alerts (error : value) : list event :=
  if nullish error then []
  else [Alert "Error"
          (or_else (get_optional error "message") (VStr "Failed to save data"))
          []].

(** The inputs with which [handleSave] gets as far as the call of the save
    service: an image and, in the parameter-based component, a height and a
    main branch diameter that are there and that [parseFloat] reads and a
    non-empty array of branch diameters all of which it reads; in the
    store-based component, a user, stored student details that parse to
    [details], and a [stemData] in the store that is there and is an array. *)
Definition reaches_save (v : variant) (E : engine) (params currentUser : value)
    (w : world) (details : value) : Prop :=
  truthy (image w) = true /\
  match v with
  | ParameterBased =>
      truthy (UploadScreenParams.param params "height") = true /\
      isNaN (parseFloat (UploadScreenParams.param params "height")) = false /\
      truthy (UploadScreenParams.param params "mainBranchDiameter") = true /\
      isNaN (parseFloat (UploadScreenParams.param params "mainBranchDiameter"))
      = false /\
      exists diameters : list value,
        UploadScreenParams.param params "branchDiameters" = VArr diameters /\
        diameters <> [] /\
        UploadScreenParams.first_unparsed diameters 0 = None
  | StoreBased =>
      nullish currentUser = false /\
      (exists stored : value,
         AsyncStorage_getItem E
           ("studentDetails_" +:+ ToString (get_optional currentUser "email"))
         = Return stored /\
         truthy stored = true /\
         JSON_parse E (ToString stored) = Return details) /\
      nullish details = false /\
      truthy (field (treeData w) "stemData") = true /\
      isArray (field (treeData w) "stemData") = true
  end.

(** The record [handleSave] passes to the save service. *)
Definition record_of (v : variant) (params currentUser : value) (w : world)
    (details : value) : gmap string value :=
  match v with
  | ParameterBased => params_record params currentUser (treeData w)
  | StoreBased => store_record (treeData w) details currentUser
  end.

(** * Properties *)

(** ** Reading back the text of a natural number *)

Lemma uint_digits_below_10 (u : Decimal.uint) :
  Forall (fun d => (d < 10)%N) (uint_digits u).
Proof. induction u; simpl; constructor; auto; lia. Qed.

Lemma digit_of_digit_char (d : N) :
  (d < 10)%N -> digit_of (digit_char d) = Some d.
Proof.
  intros H. unfold digit_of, digit_char.
  rewrite N_ascii_embedding by lia.
  replace ((48 <=? 48 + d)%N && (48 + d <=? 57)%N) with true.
  - f_equal. lia.
  - symmetry. apply andb_true_iff. split; apply N.leb_le; lia.
Qed.

Lemma span_digits_digit_chars (ds : list N) :
  Forall (fun d => (d < 10)%N) ds ->
  span_digits (map digit_char ds) = (ds, []).
Proof.
  induction 1 as [|d ds Hd _ IH]; simpl; [reflexivity|].
  rewrite (digit_of_digit_char d Hd), IH. reflexivity.
Qed.

Lemma is_space_digit_char (d : N) : (d < 10)%N -> is_space (digit_char d) = false.
Proof.
  intros H. unfold is_space, digit_char. rewrite N_ascii_embedding by lia.
  repeat (apply orb_false_iff; split).
  - apply andb_false_iff. right. apply N.leb_gt. lia.
  - apply N.eqb_neq. lia.
  - apply N.eqb_neq. lia.
Qed.

Lemma read_sign_digit_char (d : N) (r : list ascii) :
  (d < 10)%N -> read_sign (digit_char d :: r) = (false, digit_char d :: r).
Proof.
  intros H.
  assert (Hc : exists n, (48 <= n < 58)%N /\ digit_char d = ascii_of_N n).
  { exists (48 + d)%N. split; [lia | reflexivity]. }
  destruct Hc as (n & Hn & ->).
  assert (Hp : ascii_of_N n <> "+"%char).
  { intros Heq. apply (f_equal N_of_ascii) in Heq.
    rewrite N_ascii_embedding in Heq by lia. simpl in Heq. lia. }
  assert (Hm : ascii_of_N n <> "-"%char).
  { intros Heq. apply (f_equal N_of_ascii) in Heq.
    rewrite N_ascii_embedding in Heq by lia. simpl in Heq. lia. }
  unfold read_sign.
  destruct (ascii_of_N n) as [[] [] [] [] [] [] [] []]; try reflexivity;
    congruence.
Qed.

Lemma digits_value_from_uint (u : Decimal.uint) (acc : nat) :
  digits_value_from (N.of_nat acc) (uint_digits u)
  = N.of_nat (Nat.of_uint_acc u acc).
Proof.
  revert acc. unfold digits_value_from.
  induction u; intros acc; simpl; [reflexivity|..];
    rewrite <- IHu; f_equal; rewrite Nat.tail_mul_spec; lia.
Qed.

Lemma digits_value_nat_digits (n : nat) : digits_value (nat_digits n) = N.of_nat n.
Proof.
  unfold digits_value, nat_digits.
  change 0%N with (N.of_nat 0). rewrite digits_value_from_uint.
  change (Nat.of_uint_acc (Nat.to_uint n) 0) with (Nat.of_uint (Nat.to_uint n)).
  now rewrite Unsigned.of_to.
Qed.

Lemma nat_digits_not_nil (n : nat) : nat_digits n <> [].
Proof.
  intros H. pose proof (digits_value_nat_digits n) as Hv.
  unfold nat_digits in *.
  destruct (Nat.to_uint n) eqn:Hu; simpl in H; try discriminate.
  assert (Hn : Nat.of_uint (Nat.to_uint n) = 0%nat) by (rewrite Hu; reflexivity).
  rewrite Unsigned.of_to in Hn. subst n. discriminate Hu.
Qed.

(** [parseInt] reads the decimal text of [n] back as [n]. *)
Lemma parseInt10_nat_to_string (n : nat) :
  Str.parseInt10 (nat_to_string n) = of_decimal false (N.of_nat n) 0.
Proof.
  unfold Str.parseInt10, nat_to_string, digits_string.
  rewrite list_ascii_of_string_of_list_ascii.
  pose proof (uint_digits_below_10 (Nat.to_uint n)) as Hall.
  pose proof (nat_digits_not_nil n) as Hne.
  pose proof (digits_value_nat_digits n) as Hv.
  unfold nat_digits in *.
  destruct (uint_digits (Nat.to_uint n)) as [|d ds] eqn:Hds; [congruence|].
  assert (Hd : (d < 10)%N) by (inversion Hall; assumption).
  change (map digit_char (d :: ds)) with (digit_char d :: map digit_char ds).
  unfold trim_start at 1. rewrite (is_space_digit_char d Hd).
  rewrite (read_sign_digit_char d _ Hd).
  change (digit_char d :: map digit_char ds) with (map digit_char (d :: ds)).
  rewrite (span_digits_digit_chars _ Hall). rewrite Hv. reflexivity.
Qed.

(** ** Integers from 1 on are neither NaN nor below 1 *)

Lemma underflows_integer (m : N) : (1 <= m)%N -> underflows m 0 = false.
Proof.
  intros H. unfold underflows, dec_compare. simpl (0 <=? 0)%Z. cbv iota.
  assert (Hq : (1 < 2 ^ 1075)%Z) by (apply Z.pow_gt_1; lia).
  replace (Z.of_N m * 10 ^ 0 * 2 ^ 1075 ?= 1)%Z with Gt; [reflexivity|].
  symmetry. apply Z.compare_gt_iff. rewrite Z.pow_0_r. nia.
Qed.

Lemma of_decimal_integer (m : N) :
  (1 <= m)%N ->
  of_decimal false m 0 = Infinity false \/ of_decimal false m 0 = Dec false m 0.
Proof.
  intros H. unfold of_decimal. rewrite (underflows_integer m H).
  destruct (overflows m 0); auto.
Qed.

Lemma isNaN_of_decimal (neg : bool) (m : N) (e : Z) :
  isNaN (of_decimal neg m e) = false.
Proof.
  unfold of_decimal. destruct (underflows m e); [reflexivity|].
  destruct (overflows m e); reflexivity.
Qed.

Lemma lt1_integer (m : N) : (1 <= m)%N -> lt1 (of_decimal false m 0) = false.
Proof.
  intros H. destruct (of_decimal_integer m H) as [-> | ->]; [reflexivity|].
  unfold lt1, dec_compare. simpl (0 <=? 0)%Z. cbv iota. simpl orb.
  assert (Hq : (0 < 2 ^ 54)%Z) by (apply Z.pow_pos_nonneg; lia).
  replace (Z.of_N m * 10 ^ 0 * 2 ^ 54 ?= 2 ^ 54 - 1)%Z with Gt; [reflexivity|].
  symmetry. apply Z.compare_gt_iff. rewrite Z.pow_0_r. nia.
Qed.

(** ** The draft store *)

Lemma lookup_spread (prevData newData : gmap string value) (k : string) :
  spread prevData newData !! k
  = match newData !! k with Some v => Some v | None => prevData !! k end.
Proof.
  unfold spread. rewrite lookup_union.
  destruct (newData !! k), (prevData !! k); reflexivity.
Qed.

Lemma field_initialTreeData (k : string) :
  field initialTreeData k
  = if String.eqb k "treeId" then VStr ""
    else if String.eqb k "numBranches" then VNum (Dec false 0 0)
    else if String.eqb k "stemData" then VArr []
    else if String.eqb k "studentName" then VStr ""
    else if String.eqb k "studentRollNo" then VStr ""
    else if String.eqb k "studentGroup" then VStr ""
    else if String.eqb k "isAdmin" then VBool false
    else VUndefined.
Proof.
  unfold field, initialTreeData, object. simpl fold_left.
  repeat match goal with
         | |- context [String.eqb k ?s] =>
             destruct (String.eqb_spec k s) as [->|?]; [reflexivity|]
         end.
  rewrite !lookup_insert_ne by congruence. reflexivity.
Qed.

(** C9.  [updateTreeData(newData)] leaves a store in which every key of
    [newData] holds the value [newData] gives it and every other key holds
    what it held before; [resetTreeData()] leaves the default store whatever
    the store was; neither touches anything but the store and neither
    throws. *)
Theorem draft_store_contract (w : world) (newData : gmap string value) :
  (forall k : string,
     treeData (updateTreeData newData w).2 !! k
     = match newData !! k with
       | Some v => Some v
       | None => treeData w !! k
       end) /\
  treeData (resetTreeData w).2 = initialTreeData /\
  (forall k : string,
     field (treeData (resetTreeData w).2) k
     = if String.eqb k "treeId" then VStr ""
       else if String.eqb k "numBranches" then VNum (Dec false 0 0)
       else if String.eqb k "stemData" then VArr []
       else if String.eqb k "studentName" then VStr ""
       else if String.eqb k "studentRollNo" then VStr ""
       else if String.eqb k "studentGroup" then VStr ""
       else if String.eqb k "isAdmin" then VBool false
       else VUndefined) /\
  (updateTreeData newData w).1 = Return tt /\
  (resetTreeData w).1 = Return tt /\
  (forall w' : world,
     w' = (updateTreeData newData w).2 \/ w' = (resetTreeData w).2 ->
     image w' = image w /\ loading w' = loading w /\ trace w' = trace w).
Proof.
  split; [|split; [|split; [|split; [|split]]]].
  - intros k. apply lookup_spread.
  - reflexivity.
  - intros k. apply field_initialTreeData.
  - reflexivity.
  - reflexivity.
  - intros w' [-> | ->]; repeat split; reflexivity.
Qed.

(** ** Running a handler *)

Ltac run :=
  cbv beta delta
    [bind ret throw try_catch try_finally await emit setLoading setImage
     setTreeData updateTreeData resetTreeData Alert_alert Alert_alert_buttons
     navigate navigation_reset read_treeData read_image saveTreeData
     catch_handleSave fst snd negb orb andb] iota zeta;
  cbn [treeData image loading trace fst snd].

Lemma truthy_VStr (s : string) : truthy (VStr s) = negb (String.eqb s "").
Proof. reflexivity. Qed.

Lemma nat_to_string_not_empty (n : nat) : nat_to_string n <> "".
Proof.
  unfold nat_to_string, digits_string. intros H.
  apply (f_equal list_ascii_of_string) in H.
  rewrite list_ascii_of_string_of_list_ascii in H. simpl in H.
  apply map_eq_nil in H. exact (nat_digits_not_nil n H).
Qed.

Lemma field_spread (prevData newData : gmap string value) (k : string) :
  field (spread prevData newData) k
  = match newData !! k with Some v => v | None => field prevData k end.
Proof.
  unfold field. rewrite lookup_spread. destruct (newData !! k); reflexivity.
Qed.

(** ** Step 1 *)

(** C5.  [handleNext] of Step 1 never throws and leaves [image] and
    [loading] alone.  When the tree ID or the branch-count text is empty it
    shows "All fields are required!" and does nothing else.  Otherwise, when
    [parseInt] of the branch-count text is NaN or below 1, it shows the
    invalid-branch-count message and does nothing else.  Otherwise it merges
    [treeId] and the parsed count into the store, every other key reading as
    before, and navigates to Step 2 with them.  The decimal text of every
    integer from 1 on is accepted. *)
Theorem step1_handleNext_progression (treeId numBranches : string) (w : world) :
  let r := TreeDataForm.handleNext treeId numBranches w in
  let branchesNum := Str.parseInt10 numBranches in
  r.1 = Return tt /\ image r.2 = image w /\ loading r.2 = loading w /\
  (treeId = "" \/ numBranches = "" ->
   treeData r.2 = treeData w /\
   trace r.2 = trace w ++ [Alert "Error" (VStr "All fields are required!") []]) /\
  (treeId <> "" /\ numBranches <> "" /\
   (isNaN branchesNum = true \/ lt1 branchesNum = true) ->
   treeData r.2 = treeData w /\
   trace r.2
   = trace w ++
     [Alert "Error"
        (VStr "Please enter a valid number of branches (must be at least 1)") []]) /\
  (treeId <> "" /\ numBranches <> "" /\
   isNaN branchesNum = false /\ lt1 branchesNum = false ->
   (forall k : string,
      field (treeData r.2) k
      = if String.eqb k "treeId" then VStr treeId
        else if String.eqb k "numBranches" then VNum branchesNum
        else field (treeData w) k) /\
   trace r.2
   = trace w ++
     [Navigate "BranchDetailsForm"
        (VObj (object [("treeId", VStr treeId); ("branches", VNum branchesNum);
                       ("studentName", field (treeData w) "studentName");
                       ("studentRollNo", field (treeData w) "studentRollNo");
                       ("studentGroup", field (treeData w) "studentGroup")]))]) /\
  (forall n : nat,
     (1 <= n)%nat -> treeId <> "" ->
     let r' := TreeDataForm.handleNext treeId (nat_to_string n) w in
     field (treeData r'.2) "treeId" = VStr treeId /\
     field (treeData r'.2) "numBranches" = VNum (of_decimal false (N.of_nat n) 0) /\
     exists params : value,
       trace r'.2 = trace w ++ [Navigate "BranchDetailsForm" params]).
Proof.
  assert (Hgen : forall nb : string,
    let r := TreeDataForm.handleNext treeId nb w in
    let branchesNum := Str.parseInt10 nb in
    treeId <> "" /\ nb <> "" /\
    isNaN branchesNum = false /\ lt1 branchesNum = false ->
    (forall k : string,
      field (treeData r.2) k
      = if String.eqb k "treeId" then VStr treeId
        else if String.eqb k "numBranches" then VNum branchesNum
        else field (treeData w) k) /\
    trace r.2
    = trace w ++
      [Navigate "BranchDetailsForm"
         (VObj (object [("treeId", VStr treeId); ("branches", VNum branchesNum);
                        ("studentName", field (treeData w) "studentName");
                        ("studentRollNo", field (treeData w) "studentRollNo");
                        ("studentGroup", field (treeData w) "studentGroup")]))]).
  { intros nb r branchesNum (Ht & Hn & Hnan & Hlt). subst r branchesNum.
    unfold TreeDataForm.handleNext. rewrite !truthy_VStr.
    apply String.eqb_neq in Ht, Hn. rewrite Ht, Hn, Hnan, Hlt. run.
    split; [|reflexivity].
    intros k. rewrite field_spread. unfold object. simpl fold_left.
    destruct (String.eqb_spec k "treeId") as [->|H1]; [reflexivity|].
    destruct (String.eqb_spec k "numBranches") as [->|H2]; [reflexivity|].
    destruct (String.eqb_spec k "studentName") as [->|H3];
      [unfold field; destruct (treeData w !! "studentName"); reflexivity|].
    destruct (String.eqb_spec k "studentRollNo") as [->|H4];
      [unfold field; destruct (treeData w !! "studentRollNo"); reflexivity|].
    destruct (String.eqb_spec k "studentGroup") as [->|H5];
      [unfold field; destruct (treeData w !! "studentGroup"); reflexivity|].
    rewrite !lookup_insert_ne by congruence. reflexivity. }
  cbv zeta. unfold TreeDataForm.handleNext. rewrite !truthy_VStr.
  split; [|split; [|split; [|split; [|split; [|split]]]]].
  - destruct (negb _ || negb _); [reflexivity|].
    destruct (isNaN _ || lt1 _); reflexivity.
  - destruct (negb _ || negb _); [reflexivity|].
    destruct (isNaN _ || lt1 _); reflexivity.
  - destruct (negb _ || negb _); [reflexivity|].
    destruct (isNaN _ || lt1 _); reflexivity.
  - intros [-> | ->]; [|rewrite orb_true_r]; split; reflexivity.
  - intros (Ht & Hn & Hbad). apply String.eqb_neq in Ht, Hn. rewrite Ht, Hn.
    replace (isNaN (Str.parseInt10 numBranches) || lt1 (Str.parseInt10 numBranches))
      with true; [split; reflexivity|].
    symmetry. apply orb_true_iff. exact Hbad.
  - intros H. exact (Hgen numBranches H).
  - intros n Hn Ht.
    destruct (Hgen (nat_to_string n)) as [Hk Htr].
    { repeat split; [exact Ht | apply nat_to_string_not_empty | |];
        rewrite parseInt10_nat_to_string;
        [apply isNaN_of_decimal | apply lt1_integer; lia]. }
    cbv zeta in Hk, Htr. rewrite parseInt10_nat_to_string in Hk, Htr.
    split; [exact (Hk "treeId")|]. split; [exact (Hk "numBranches")|].
    eexists. exact Htr.
Qed.

(** ** Step 2 *)

Import BranchDetailsForm Step2.

Lemma validate_spec (s : stem) (index : nat) (w : world) :
  validate s index w
  = (Return (validated s),
     World (treeData w) (image w) (loading w) (trace w ++ reports [s] index)).
Proof.
  unfold validate, validated, passes, parsed, reports, first_failing_check.
  rewrite !truthy_VStr, !negb_involutive. destruct w as [td im lo tr].
  destruct (_ || _); [reflexivity|].
  destruct (_ || _); [reflexivity|].
  destruct (_ || _); [reflexivity|].
  destruct (_ || _); [reflexivity|].
  run. rewrite app_nil_r. reflexivity.
Qed.

Lemma reports_cons (s : stem) (r : list stem) (index : nat) :
  reports (s :: r) index = reports [s] index ++ reports r (S index).
Proof. simpl. destruct (first_failing_check s); reflexivity. Qed.

Lemma map_from_validate (l : list stem) (index : nat) (w : world) :
  map_from validate l index w
  = (Return (map validated l),
     World (treeData w) (image w) (loading w) (trace w ++ reports l index)).
Proof.
  revert index w. induction l as [|s r IH]; intros index w.
  - destruct w. simpl. run. rewrite app_nil_r. reflexivity.
  - cbn [map_from]. unfold bind at 1. rewrite validate_spec.
    unfold bind at 1. rewrite IH. run.
    rewrite (reports_cons s r), app_assoc. reflexivity.
Qed.

Lemma includes_null_validated (l : list stem) :
  includes_null (map validated l) = negb (forallb passes l).
Proof.
  unfold includes_null. induction l as [|s r IH]; [reflexivity|].
  simpl. rewrite IH. unfold validated. destruct (passes s); reflexivity.
Qed.

Lemma reports_all_pass (l : list stem) (index : nat) :
  forallb passes l = true -> reports l index = [].
Proof.
  revert index. induction l as [|s r IH]; intros index H; [reflexivity|].
  simpl in H. apply andb_true_iff in H as [Hs Hr]. simpl.
  unfold passes in Hs. destruct (first_failing_check s); [discriminate|].
  apply IH, Hr.
Qed.

Lemma validated_all_pass (l : list stem) :
  forallb passes l = true -> map validated l = map parsed l.
Proof.
  induction l as [|s r IH]; intros H; [reflexivity|].
  simpl in H. apply andb_true_iff in H as [Hs Hr]. simpl.
  rewrite (IH Hr). unfold validated. rewrite Hs. reflexivity.
Qed.

(** What [handleNext] of Step 2 does, case by case. *)
Lemma step2_handleNext_spec
    (treeId branches studentName studentRollNo studentGroup : value)
    (stemData : list stem) (w : world) :
  handleNext treeId branches studentName studentRollNo studentGroup stemData w
  = if negb (truthy treeId) || negb (truthy branches) then
      (Return tt,
       World (treeData w) (image w) (loading w)
         (trace w ++
          [Alert "Error"
             (VStr "Please enter all required details before proceeding.") []]))
    else if forallb passes stemData then
      (Return tt,
       World
         (spread (treeData w)
            (object [("treeId", treeId); ("numBranches", branches);
                     ("stemData", VArr (map parsed stemData));
                     ("studentName", studentName);
                     ("studentRollNo", studentRollNo);
                     ("studentGroup", studentGroup)]))
         (image w) (loading w)
         (trace w ++
          [Navigate "UploadScreen"
             (VObj (object [("treeId", treeId); ("branches", branches);
                            ("stemData", VArr (map parsed stemData));
                            ("studentName", studentName);
                            ("studentRollNo", studentRollNo);
                            ("studentGroup", studentGroup)]))]))
    else
      (Return tt,
       World (treeData w) (image w) (loading w)
         (trace w ++ reports stemData 0)).
Proof.
  unfold handleNext. destruct (negb (truthy treeId) || negb (truthy branches)).
  - reflexivity.
  - unfold bind at 1. rewrite map_from_validate, includes_null_validated.
    destruct (forallb passes stemData) eqn:Hall.
    + rewrite (validated_all_pass _ Hall), (reports_all_pass _ 0 Hall).
      run. rewrite app_nil_r. reflexivity.
    + reflexivity.
Qed.

Lemma reports_alerts (l : list stem) (index : nat) :
  forallb is_alert (reports l index) = true.
Proof.
  revert index. induction l as [|s r IH]; intros index; [reflexivity|].
  simpl. destruct (first_failing_check s); simpl; apply IH.
Qed.

Lemma reports_length (l : list stem) (index : nat) :
  length (reports l index)
  = length (List.filter (fun s => negb (passes s)) l).
Proof.
  revert index. induction l as [|s r IH]; intros index; [reflexivity|].
  simpl. unfold passes at 1. destruct (first_failing_check s); simpl;
    rewrite IH; reflexivity.
Qed.

Lemma reports_lookup (l : list stem) (index i : nat) (s : stem) (msg : string) :
  l !! i = Some s -> first_failing_check s = Some msg ->
  In (Alert "Error" (VStr (msg +:+ nat_to_string (index + i + 1))) [])
     (reports l index).
Proof.
  revert index i. induction l as [|x r IH]; intros index i Hl Hc; [discriminate|].
  destruct i as [|i]; simpl in Hl.
  - injection Hl as ->. simpl. rewrite Hc, Nat.add_0_r. left. reflexivity.
  - specialize (IH (S index) i Hl Hc).
    replace (index + S i + 1)%nat with (S index + i + 1)%nat by lia.
    simpl. destruct (first_failing_check x); [right|]; exact IH.
Qed.

(** C3.  [handleNext] of Step 2 either commits the whole batch or nothing:
    when the tree ID and the count are there and every entry passes the four
    checks, the store's [stemData] becomes the array of all the parsed
    entries, as many as there were entries, and the handler navigates to
    Step 3; in every other case the store is what it was and the handler has
    only shown alerts. *)
Theorem step2_no_partial_commit
    (treeId branches studentName studentRollNo studentGroup : value)
    (stemData : list stem) (w : world) :
  let r := BranchDetailsForm.handleNext treeId branches studentName
             studentRollNo studentGroup stemData w in
  if truthy treeId && truthy branches && forallb passes stemData then
    field (treeData r.2) "stemData" = VArr (map parsed stemData) /\
    length (map parsed stemData) = length stemData /\
    exists params : value, trace r.2 = trace w ++ [Navigate "UploadScreen" params]
  else
    treeData r.2 = treeData w /\
    exists alerts : list event,
      trace r.2 = trace w ++ alerts /\ forallb is_alert alerts = true.
Proof.
  cbv zeta. rewrite step2_handleNext_spec.
  destruct (truthy treeId), (truthy branches); simpl;
    try (split; [reflexivity|]; eexists; split; reflexivity).
  destruct (forallb passes stemData); simpl.
  - split; [|split; [apply length_map | eexists; reflexivity]].
    rewrite field_spread. reflexivity.
  - split; [reflexivity|]. eexists. split; [reflexivity | apply reports_alerts].
Qed.

(** C4, as the code has it.  When the tree ID and the count are there and
    some entry fails a check, [handleNext] of Step 2 goes through every entry
    in ascending order and shows one alert for each entry that fails, naming
    the first check that entry fails and its 1-based position; validation does
    not stop at the first failing entry.  Nothing is committed. *)
Theorem step2_reports_every_failing_entry
    (treeId branches studentName studentRollNo studentGroup : value)
    (stemData : list stem) (w : world) :
  truthy treeId = true -> truthy branches = true ->
  forallb passes stemData = false ->
  let r := BranchDetailsForm.handleNext treeId branches studentName
             studentRollNo studentGroup stemData w in
  trace r.2 = trace w ++ reports stemData 0 /\
  length (reports stemData 0)
  = length (List.filter (fun s => negb (passes s)) stemData) /\
  (forall (i : nat) (s : stem) (msg : string),
     stemData !! i = Some s -> first_failing_check s = Some msg ->
     In (Alert "Error" (VStr (msg +:+ nat_to_string (i + 1))) [])
        (reports stemData 0)) /\
  treeData r.2 = treeData w.
Proof.
  intros Ht Hb Hall. cbv zeta. rewrite step2_handleNext_spec, Ht, Hb, Hall.
  simpl. split; [reflexivity|]. split; [apply reports_length|].
  split; [|reflexivity].
  intros i s msg Hl Hc. exact (reports_lookup stemData 0 i s msg Hl Hc).
Qed.

(** ** Stepping through a handler *)

Lemma post_bind {A B : Type} (m : M A) (f : A -> M B) (w : world)
    (Q : outcome B * world -> Prop) :
  post m w (fun rw => match rw.1 with
                      | Return a => post (f a) rw.2 Q
                      | Throw e => Q (Throw e, rw.2)
                      end) ->
  post (bind m f) w Q.
Proof. unfold post, bind. destruct (m w) as [[a|e] w']; auto. Qed.

Lemma post_try_catch {A : Type} (m : M A) (h : value -> M A) (w : world)
    (Q : outcome A * world -> Prop) :
  post m w (fun rw => match rw.1 with
                      | Return a => Q (Return a, rw.2)
                      | Throw e => post (h e) rw.2 Q
                      end) ->
  post (try_catch m h) w Q.
Proof. unfold post, try_catch. destruct (m w) as [[a|e] w']; auto. Qed.

Lemma post_try_finally {A : Type} (m : M A) (f : M unit) (w : world)
    (Q : outcome A * world -> Prop) :
  post m w (fun rw =>
    post f rw.2 (fun rw' => match rw'.1 with
                            | Return _ => Q (rw.1, rw'.2)
                            | Throw e => Q (Throw e, rw'.2)
                            end)) ->
  post (try_finally m f) w Q.
Proof.
  unfold post, try_finally. destruct (m w) as [r w1]. simpl.
  destruct (f w1) as [[u|e] w2]; auto.
Qed.

Ltac step :=
  cbv beta zeta; cbn [fst snd treeData image loading trace];
  lazymatch goal with
  | |- post (bind _ _) _ _ => apply post_bind
  | |- post (try_catch _ _) _ _ => apply post_try_catch
  | |- post (try_finally _ _) _ _ => apply post_try_finally
  | |- post (if ?c then _ else _) _ _ => destruct c eqn:?
  | |- post (match ?x with _ => _ end) _ _ => destruct x eqn:?
  | |- match ?x with _ => _ end => destruct x eqn:?
  | |- post (get _ _ _) _ _ => unfold get at 1
  | |- post (saveTreeData _ _ _) _ _ => unfold saveTreeData at 1
  | |- post (catch_handleSave _ _) _ _ => unfold catch_handleSave at 1
  | |- post (resolve _ _ _ _) _ _ => unfold resolve at 1
  | |- post (get_first _ _) _ _ => unfold get_first at 1
  | |- post ?m _ _ =>
      unfold post at 1;
      cbv beta delta
        [ret throw await emit setLoading setImage setTreeData updateTreeData
         resetTreeData Alert_alert Alert_alert_buttons navigate
         navigation_reset read_treeData read_image] iota
  end.

Ltac steps := repeat step; cbv beta zeta; cbn [fst snd treeData image loading trace].

Lemma app_singleton_assoc {A : Type} (l : list A) (a b : A) :
  (l ++ [a]) ++ [b] = l ++ [a; b].
Proof. rewrite <- app_assoc. reflexivity. Qed.

(** ** Step 3 *)

(** C6.  With no image ([image] is falsy), [handleSave] of either component
    shows "Please upload an image before saving." and does nothing else: the
    save service is not called, the store and the image stay as they are, and
    the handler returns normally. *)
Theorem handleSave_requires_image (v : variant) (E : engine)
    (params currentUser : value) (w : world) :
  truthy (image w) = false ->
  let r := handleSave_of v E params currentUser w in
  r.1 = Return tt /\
  trace r.2
  = trace w ++ [Alert "Error" (VStr "Please upload an image before saving.") []] /\
  existsb is_save (trace r.2) = existsb is_save (trace w) /\
  treeData r.2 = treeData w /\ image r.2 = image w.
Proof.
  intros Himg. cbv zeta.
  assert (H : let r := handleSave_of v E params currentUser w in
              r.1 = Return tt /\
              trace r.2
              = trace w ++
                [Alert "Error" (VStr "Please upload an image before saving.") []] /\
              treeData r.2 = treeData w /\ image r.2 = image w).
  { cbv zeta.
    change (post (handleSave_of v E params currentUser) w
              (fun rw => rw.1 = Return tt /\
                 trace rw.2
                 = trace w ++
                   [Alert "Error"
                      (VStr "Please upload an image before saving.") []] /\
                 treeData rw.2 = treeData w /\ image rw.2 = image w)).
    destruct v; unfold handleSave_of, UploadScreenParams.handleSave,
      UploadScreenStore.handleSave.
    - steps; try (rewrite Himg in *; discriminate); repeat split; reflexivity.
    - steps; try (rewrite Himg in *; discriminate); repeat split; reflexivity. }
  cbv zeta in H. destruct H as (H1 & H2 & H3 & H4).
  repeat split; try assumption.
  rewrite H2, existsb_app. simpl. apply orb_false_r.
Qed.

(** With no image captured yet, [handleSave] of the store-based component
    only shows the alert, whatever the save service would do. *)
Lemma handleSave_requires_image_example :
  truthy (image initial_world) = false /\
  trace (handleSave_of StoreBased
           (engine_with (Return tt) (VStr "{}") (VObj ∅) VNull)
           VUndefined (VObj ∅) initial_world).2
  = [Alert "Error" (VStr "Please upload an image before saving.") []].
Proof.
  split; [reflexivity|].
  apply (handleSave_requires_image StoreBased
           (engine_with (Return tt) (VStr "{}") (VObj ∅) VNull)
           VUndefined (VObj ∅) initial_world).
  reflexivity.
Defined.

(** C7.  [loading] is false when [handleSave] is done, however the attempt
    ends: always in the store-based component, and in the parameter-based
    one whenever it was false before (the Save button is disabled while it is
    true) or an image is there. *)
Theorem handleSave_releases_loading (v : variant) (E : engine)
    (params currentUser : value) (w : world) :
  v = StoreBased \/ loading w = false \/ truthy (image w) = true ->
  loading (handleSave_of v E params currentUser w).2 = false.
Proof.
  intros H.
  change (post (handleSave_of v E params currentUser) w
            (fun rw => loading rw.2 = false)).
  destruct v; unfold handleSave_of, UploadScreenParams.handleSave,
    UploadScreenStore.handleSave; steps; try reflexivity.
  destruct H as [H | [H | H]]; [discriminate | assumption |].
  rewrite H in *. discriminate.
Qed.

(** The save service rejects; [loading] is false afterwards. *)
Lemma handleSave_releases_loading_example :
  loading
    (handleSave_of ParameterBased
       (engine_with (Throw (error_object "Error" "network unavailable"))
          (VStr "{}") (VObj ∅) VNull)
       (VObj (object [("height", VStr "3"); ("mainBranchDiameter", VStr "2");
                      ("branchDiameters", VArr [VStr "1"])]))
       VNull (World initialTreeData (VStr "file:///tree.jpg") false [])).2
  = false.
Proof.
  apply (handleSave_releases_loading ParameterBased). right. left. reflexivity.
Defined.

Lemma app_inv_nil {A : Type} (l l' : list A) : l = l ++ l' -> [] = l'.
Proof.
  intros H. apply (app_inv_head l). rewrite app_nil_r. exact H.
Qed.

Ltac added_events Htr :=
  rewrite ?app_singleton_assoc in Htr;
  first [apply app_inv_head in Htr | apply app_inv_nil in Htr].

(** ** A save call that is rejected *)

(** The parameter-based [handleSave] with an image and parameters that pass
    its checks, when the save service rejects with [error]. *)
Lemma params_handleSave_rejected (E : engine) (params currentUser : value)
    (w : world) (diameters : list value) (error : value) :
  truthy (image w) = true ->
  truthy (UploadScreenParams.param params "height") = true ->
  isNaN (parseFloat (UploadScreenParams.param params "height")) = false ->
  truthy (UploadScreenParams.param params "mainBranchDiameter") = true ->
  isNaN (parseFloat (UploadScreenParams.param params "mainBranchDiameter")) = false ->
  UploadScreenParams.param params "branchDiameters" = VArr diameters ->
  diameters <> [] ->
  UploadScreenParams.first_unparsed diameters 0 = None ->
  saveTreeData_service E (params_record params currentUser (treeData w)) (image w)
  = Throw error ->
  UploadScreenParams.handleSave E params currentUser w
  = (rejection_outcome E error,
     World (treeData w) (image w) false
       (trace w ++
        SaveTreeData (params_record params currentUser (treeData w)) (image w)
        :: rejection_alerts error)).
Proof.
  intros Himg Hh Hhn Hm Hmn Hbd Hne Hfirst Hsvc.
  unfold params_record in *.
  unfold UploadScreenParams.handleSave, try_finally, try_catch, bind,
    read_image, read_treeData, setLoading, saveTreeData, emit, await.
  cbn [image treeData loading trace]. rewrite Himg, Hh, Hhn, Hm, Hmn.
  rewrite Hbd in *. simpl.
  destruct diameters as [|d0 ds]; [congruence|].
  simpl length. cbv beta iota. simpl negb. simpl orb.
  change (elements (VArr (d0 :: ds))) with (d0 :: ds) in *.
  rewrite Hfirst. cbn [image treeData loading trace]. rewrite Hsvc.
  unfold catch_handleSave, bind, get, rejection_outcome, rejection_alerts.
  destruct (nullish error) eqn:Hnull; simpl; rewrite ?Hnull; simpl;
    rewrite ?app_singleton_assoc; reflexivity.
Qed.

(** The store-based [handleSave] with an image, a user, stored student
    details that parse and a [stemData] array in the store, when the save
    service rejects with [error]. *)
Lemma store_handleSave_rejected (E : engine) (currentUser : value) (w : world)
    (stored details error : value) :
  truthy (image w) = true ->
  nullish currentUser = false ->
  AsyncStorage_getItem E
    ("studentDetails_" +:+ ToString (get_optional currentUser "email"))
  = Return stored ->
  truthy stored = true ->
  JSON_parse E (ToString stored) = Return details ->
  nullish details = false ->
  truthy (field (treeData w) "stemData") = true ->
  isArray (field (treeData w) "stemData") = true ->
  saveTreeData_service E (store_record (treeData w) details currentUser) (image w)
  = Throw error ->
  UploadScreenStore.handleSave E currentUser w
  = (rejection_outcome E error,
     World (treeData w) (image w) false
       (trace w ++
        SaveTreeData (store_record (treeData w) details currentUser) (image w)
        :: rejection_alerts error)).
Proof.
  intros Himg Hcu Hget Hst Hparse Hdet Hsd Harr Hsvc.
  unfold store_record in *.
  unfold UploadScreenStore.handleSave, try_finally, try_catch, bind, get,
    read_image, read_treeData, setLoading, saveTreeData, emit, await.
  cbn [image treeData loading trace]. rewrite Himg, Hcu. simpl.
  rewrite Hget, Hst. simpl. rewrite Hparse, Hsd, Harr, Hdet. simpl.
  rewrite Hsvc.
  unfold catch_handleSave, bind, get, rejection_outcome, rejection_alerts.
  destruct (nullish error) eqn:Hnull; simpl; rewrite ?Hnull; simpl;
    rewrite ?app_singleton_assoc; reflexivity.
Qed.

Lemma handleSave_rejected (v : variant) (E : engine) (params currentUser : value)
    (w : world) (details error : value) :
  reaches_save v E params currentUser w details ->
  saveTreeData_service E (record_of v params currentUser w details) (image w)
  = Throw error ->
  handleSave_of v E params currentUser w
  = (rejection_outcome E error,
     World (treeData w) (image w) false
       (trace w ++
        SaveTreeData (record_of v params currentUser w details) (image w)
        :: rejection_alerts error)).
Proof.
  intros [Himg Hready] Hsvc. destruct v; simpl in *.
  - destruct Hready as (Hh & Hhn & Hm & Hmn & diameters & Hbd & Hne & Hfirst).
    exact (params_handleSave_rejected E params currentUser w diameters error
             Himg Hh Hhn Hm Hmn Hbd Hne Hfirst Hsvc).
  - destruct Hready as (Hcu & (stored & Hget & Hst & Hparse) & Hdet & Hsd & Harr).
    exact (store_handleSave_rejected E currentUser w stored details error
             Himg Hcu Hget Hst Hparse Hdet Hsd Harr Hsvc).
Qed.

(** C8.  When [handleSave] of either component gets as far as the save call
    and the service rejects with an error whose [message] is truthy, the
    handler shows that message, unchanged, in an "Error" alert and does
    nothing after it: the store and the image are what they were, [loading]
    is false, and the handler returns normally. *)
Theorem handleSave_failed_save (v : variant) (E : engine)
    (params currentUser : value) (w : world) (details error : value) :
  reaches_save v E params currentUser w details ->
  saveTreeData_service E (record_of v params currentUser w details) (image w)
  = Throw error ->
  nullish error = false ->
  truthy (get_optional error "message") = true ->
  handleSave_of v E params currentUser w
  = (Return tt,
     World (treeData w) (image w) false
       (trace w ++
        [SaveTreeData (record_of v params currentUser w details) (image w);
         Alert "Error" (get_optional error "message") []])).
Proof.
  intros Hready Hsvc Hnull Hmsg.
  rewrite (handleSave_rejected v E params currentUser w details error Hready Hsvc).
  unfold rejection_outcome, rejection_alerts, or_else. rewrite Hnull, Hmsg.
  reflexivity.
Qed.

(** Both components, the save service rejecting with "network unavailable":
    the alert shows that text, and the store and the image are as before. *)
Lemma handleSave_failed_save_example :
  handleSave_of ParameterBased
    (engine_with (Throw (error_object "Error" "network unavailable"))
       (VStr "{}") (VObj (object [("studentName", VStr "Asha")])) VNull)
    (VObj (object [("treeId", VStr "T1"); ("height", VStr "3");
                   ("branches", VNum (Dec false 1 0));
                   ("mainBranchDiameter", VStr "2");
                   ("branchDiameters", VArr [VStr "1"])]))
    (VObj (object [("email", VStr "a@b.c")]))
    (World sample_store (VStr "file:///tree.jpg") false [])
  = (Return tt,
     World sample_store (VStr "file:///tree.jpg") false
       [SaveTreeData
          (object [("treeId", VStr "T1"); ("height", VNum (Dec false 3 0));
                   ("numBranches", VNum (Dec false 1 0));
                   ("branchDiameters", VArr [VNum (Dec false 1 0)]);
                   ("mainBranchDiameter", VNum (Dec false 2 0));
                   ("studentName", VStr ""); ("studentRollNo", VStr "");
                   ("studentGroup", VStr ""); ("userEmail", VStr "a@b.c")])
          (VStr "file:///tree.jpg");
        Alert "Error" (VStr "network unavailable") []]) /\
  handleSave_of StoreBased
    (engine_with (Throw (error_object "Error" "network unavailable"))
       (VStr "{}") (VObj (object [("studentName", VStr "Asha")])) VNull)
    VUndefined (VObj (object [("email", VStr "a@b.c")]))
    (World sample_store (VStr "file:///tree.jpg") false [])
  = (Return tt,
     World sample_store (VStr "file:///tree.jpg") false
       [SaveTreeData
          (object [("treeId", VStr "T1"); ("numBranches", VNum (Dec false 1 0));
                   ("stemData", field sample_store "stemData");
                   ("studentName", VStr "Asha"); ("studentRollNo", VUndefined);
                   ("studentGroup", VUndefined); ("userEmail", VStr "a@b.c")])
          (VStr "file:///tree.jpg");
        Alert "Error" (VStr "network unavailable") []]).
Proof.
  split.
  - etransitivity; [apply (handleSave_failed_save ParameterBased
             (engine_with (Throw (error_object "Error" "network unavailable"))
                (VStr "{}") (VObj (object [("studentName", VStr "Asha")])) VNull)
             (VObj (object [("treeId", VStr "T1"); ("height", VStr "3");
                            ("branches", VNum (Dec false 1 0));
                            ("mainBranchDiameter", VStr "2");
                            ("branchDiameters", VArr [VStr "1"])]))
             (VObj (object [("email", VStr "a@b.c")]))
             (World sample_store (VStr "file:///tree.jpg") false [])
             VUndefined (error_object "Error" "network unavailable"));
      try reflexivity;
      split; [reflexivity|]; repeat (split; [reflexivity|]);
      exists [VStr "1"]; split; [reflexivity|]; split; [discriminate | reflexivity]
    | vm_compute; reflexivity].
  - etransitivity; [apply (handleSave_failed_save StoreBased
             (engine_with (Throw (error_object "Error" "network unavailable"))
                (VStr "{}") (VObj (object [("studentName", VStr "Asha")])) VNull)
             VUndefined (VObj (object [("email", VStr "a@b.c")]))
             (World sample_store (VStr "file:///tree.jpg") false [])
             (VObj (object [("studentName", VStr "Asha")]))
             (error_object "Error" "network unavailable"));
      try reflexivity;
      split; [reflexivity|]; split; [reflexivity|];
      split; [exists (VStr "{}"); repeat (split; [reflexivity|]); reflexivity|];
      repeat (split; [reflexivity|]); reflexivity
    | vm_compute; reflexivity].
Defined.

(** C1, as the code has it.  In the parameter-based component a call of the
    save service that resolves is followed by [resetTreeData()]: the store is
    the default store when [handleSave] is done.  In the store-based component
    [handleSave] never changes the store, and the OK button of its success
    alert evaluates the identifier [context], which that component does not
    declare: the callback throws a [ReferenceError] before it resets anything
    or navigates. *)
Theorem reset_after_save_by_variant (E : engine) (params currentUser : value)
    (w : world) :
  (forall (data : gmap string value) (img : value) (events : list event),
     let r := UploadScreenParams.handleSave E params currentUser w in
     trace r.2 = trace w ++ events ->
     In (SaveTreeData data img) events ->
     saveTreeData_service E data img = Return tt ->
     treeData r.2 = initialTreeData /\
     events = [SaveTreeData data img;
               Alert "Success" (VStr "Tree data has been saved!") ["OK"]]) /\
  treeData (UploadScreenStore.handleSave E currentUser w).2 = treeData w /\
  (forall context : value,
     UploadScreenStore.onPress_OK E context w
     = (Throw (ReferenceError E "context"), w)).
Proof.
  split; [|split].
  - intros data img events. cbv zeta. intros Htr Hin Hsvc. revert Htr Hin.
    change (post (UploadScreenParams.handleSave E params currentUser) w
              (fun rw =>
                 trace rw.2 = trace w ++ events ->
                 In (SaveTreeData data img) events ->
                 treeData rw.2 = initialTreeData /\
                 events = [SaveTreeData data img;
                           Alert "Success" (VStr "Tree data has been saved!")
                             ["OK"]])).
    unfold UploadScreenParams.handleSave; steps;
      intros Htr Hin; added_events Htr; subst events; simpl in Hin;
      repeat match goal with
             | H : _ \/ _ |- _ => destruct H as [H | H]
             end;
      try contradiction; try discriminate;
      match goal with
      | H : SaveTreeData _ _ = SaveTreeData _ _ |- _ =>
          injection H as <- <-
      end;
      try congruence; split; reflexivity.
  - change (post (UploadScreenStore.handleSave E currentUser) w
              (fun rw => treeData rw.2 = treeData w)).
    unfold UploadScreenStore.handleSave. steps; reflexivity.
  - intros context. reflexivity.
Qed.

(** The store-based component after a save that succeeded: the draft is
    still in the store when [handleSave] is done, and pressing OK throws and
    leaves it there. *)
Lemma store_based_save_keeps_draft :
  trace
    (UploadScreenStore.handleSave
       (engine_with (Return tt) (VStr "{}") (VObj ∅) VNull)
       (VObj (object [("email", VStr "a@b.c")]))
       (World sample_store (VStr "file:///tree.jpg") false [])).2
  = [SaveTreeData
       (object [("treeId", VStr "T1"); ("numBranches", VNum (Dec false 1 0));
                ("stemData", field sample_store "stemData");
                ("studentName", VUndefined); ("studentRollNo", VUndefined);
                ("studentGroup", VUndefined); ("userEmail", VStr "a@b.c")])
       (VStr "file:///tree.jpg");
     Alert "Success" (VStr "Tree data has been saved!") ["OK"]] /\
  field
    (treeData
       (UploadScreenStore.handleSave
          (engine_with (Return tt) (VStr "{}") (VObj ∅) VNull)
          (VObj (object [("email", VStr "a@b.c")]))
          (World sample_store (VStr "file:///tree.jpg") false [])).2)
    "treeId"
  = VStr "T1" /\
  field initialTreeData "treeId" = VStr "" /\
  UploadScreenStore.onPress_OK
    (engine_with (Return tt) (VStr "{}") (VObj ∅) VNull) VUndefined
    (World sample_store (VStr "file:///tree.jpg") false [])
  = (Throw (error_object "ReferenceError" "context is not defined"),
     World sample_store (VStr "file:///tree.jpg") false []).
Proof. vm_compute. repeat split; reflexivity. Qed.

(** C2, as the code has it.  The parameter-based [handleSave] rejects a
    [branchDiameters] that is missing, not an array or empty: it shows exactly
    one "Error" alert and does not call the save service.  The store-based
    [handleSave] does not call the save service when the store's [stemData]
    is falsy or not an array; it has no check for an empty array. *)
Theorem missing_measurements_by_variant (E : engine)
    (params currentUser : value) (w : world) :
  (elements (UploadScreenParams.param params "branchDiameters") = [] ->
   exists message : string,
     trace (UploadScreenParams.handleSave E params currentUser w).2
     = trace w ++ [Alert "Error" (VStr message) []]) /\
  (truthy (field (treeData w) "stemData") = false
   \/ isArray (field (treeData w) "stemData") = false ->
   exists events : list event,
     trace (UploadScreenStore.handleSave E currentUser w).2 = trace w ++ events /\
     existsb is_save events = false).
Proof.
  split.
  - intros Hnone.
    change (post (UploadScreenParams.handleSave E params currentUser) w
              (fun rw => exists message : string,
                 trace rw.2 = trace w ++ [Alert "Error" (VStr message) []])).
    unfold UploadScreenParams.handleSave. rewrite Hnone.
    steps; try (eexists; reflexivity);
      repeat match goal with
             | H : _ || _ = false |- _ => apply orb_false_iff in H as [? H]
             end;
      discriminate.
  - intros Hbad.
    change (post (UploadScreenStore.handleSave E currentUser) w
              (fun rw => exists events : list event,
                 trace rw.2 = trace w ++ events /\ existsb is_save events = false)).
    assert (Hcond : negb (truthy (VObj (treeData w)))
                    || negb (truthy (field (treeData w) "stemData"))
                    || negb (isArray (field (treeData w) "stemData")) = true).
    { destruct Hbad as [-> | ->]; [reflexivity | apply orb_true_r]. }
    unfold UploadScreenStore.handleSave.
    steps; try congruence;
      rewrite ?app_singleton_assoc;
      first [ eexists; split; [reflexivity | reflexivity]
            | exists []; split; [symmetry; apply app_nil_r | reflexivity] ].
Qed.

(** The store-based component with an image and the default store, whose
    [stemData] is the empty array: the save service is called. *)
Lemma store_based_saves_empty_stemData :
  field (treeData (World initialTreeData (VStr "file:///tree.jpg") false []))
        "stemData" = VArr [] /\
  trace
    (UploadScreenStore.handleSave
       (engine_with (Return tt) (VStr "{}") (VObj ∅) VNull)
       (VObj (object [("email", VStr "a@b.c")]))
       (World initialTreeData (VStr "file:///tree.jpg") false [])).2
  = [SaveTreeData
       (object [("treeId", VStr ""); ("numBranches", VNum (Dec false 0 0));
                ("stemData", VArr []);
                ("studentName", VUndefined); ("studentRollNo", VUndefined);
                ("studentGroup", VUndefined); ("userEmail", VStr "a@b.c")])
       (VStr "file:///tree.jpg");
     Alert "Success" (VStr "Tree data has been saved!") ["OK"]].
Proof. vm_compute. split; reflexivity. Qed.

Lemma param_of_step2_payload (a b c d e f : value) (k : string) :
  k <> "treeId" -> k <> "branches" -> k <> "stemData" ->
  k <> "studentName" -> k <> "studentRollNo" -> k <> "studentGroup" ->
  UploadScreenParams.param
    (VObj (object [("treeId", a); ("branches", b); ("stemData", c);
                   ("studentName", d); ("studentRollNo", e);
                   ("studentGroup", f)])) k
  = VUndefined.
Proof.
  intros. unfold UploadScreenParams.param, or_else, object. simpl.
  unfold field. rewrite !lookup_insert_ne by congruence. reflexivity.
Qed.

(** C10.  The parameters with which Step 2 navigates to the upload screen
    have no [height] and no [mainBranchDiameter].  With them the
    parameter-based [handleSave] shows one alert, "Please upload an image
    before saving." or "Please enter a valid height", and never calls the save
    service, whatever the image, the user and the service are. *)
Theorem step2_payload_never_saves
    (treeId branches studentName studentRollNo studentGroup : value)
    (stemData : list stem) (w0 : world) (params : value)
    (E : engine) (currentUser : value) (w : world) :
  trace (BranchDetailsForm.handleNext treeId branches studentName
           studentRollNo studentGroup stemData w0).2
  = trace w0 ++ [Navigate "UploadScreen" params] ->
  UploadScreenParams.param params "height" = VUndefined /\
  UploadScreenParams.param params "mainBranchDiameter" = VUndefined /\
  exists message : string,
    trace (UploadScreenParams.handleSave E params currentUser w).2
    = trace w ++ [Alert "Error" (VStr message) []] /\
    (message = "Please upload an image before saving."
     \/ message = "Please enter a valid height").
Proof.
  intros Hnav. rewrite step2_handleNext_spec in Hnav.
  assert (Hp : exists a b c d e f : value,
    params = VObj (object [("treeId", a); ("branches", b); ("stemData", c);
                           ("studentName", d); ("studentRollNo", e);
                           ("studentGroup", f)])).
  { destruct (negb (truthy treeId) || negb (truthy branches)).
    - simpl in Hnav. apply app_inv_head in Hnav. discriminate.
    - destruct (forallb passes stemData).
      + simpl in Hnav. apply app_inv_head in Hnav. injection Hnav as <-.
        do 6 eexists. reflexivity.
      + simpl in Hnav. apply app_inv_head in Hnav.
        pose proof (reports_alerts stemData 0) as Hal.
        rewrite Hnav in Hal. discriminate. }
  destruct Hp as (a & b & c & d & e & f & Hp).
  assert (Hh : UploadScreenParams.param params "height" = VUndefined)
    by (rewrite Hp; apply param_of_step2_payload; discriminate).
  split; [exact Hh|].
  split; [rewrite Hp; apply param_of_step2_payload; discriminate|].
  change (post (UploadScreenParams.handleSave E params currentUser) w
            (fun rw => exists message : string,
               trace rw.2 = trace w ++ [Alert "Error" (VStr message) []] /\
               (message = "Please upload an image before saving."
                \/ message = "Please enter a valid height"))).
  unfold UploadScreenParams.handleSave. rewrite Hh.
  steps; try discriminate; eexists; (split; [reflexivity|]); auto.
Qed.

(** Step 2 accepts one entry and navigates; [handleSave] then rejects. *)
Lemma step2_payload_never_saves_example :
  UploadScreenParams.param
    (VObj (object [("treeId", VStr "T1"); ("branches", VNum (Dec false 1 0));
                   ("stemData", VArr [parsed (Stem "2.5" "30")]);
                   ("studentName", VStr "Asha"); ("studentRollNo", VStr "7");
                   ("studentGroup", VStr "G1")])) "height" = VUndefined /\
  UploadScreenParams.param
    (VObj (object [("treeId", VStr "T1"); ("branches", VNum (Dec false 1 0));
                   ("stemData", VArr [parsed (Stem "2.5" "30")]);
                   ("studentName", VStr "Asha"); ("studentRollNo", VStr "7");
                   ("studentGroup", VStr "G1")])) "mainBranchDiameter"
  = VUndefined /\
  exists message : string,
    trace
      (UploadScreenParams.handleSave
         (engine_with (Return tt) (VStr "{}") (VObj ∅) VNull)
         (VObj (object [("treeId", VStr "T1"); ("branches", VNum (Dec false 1 0));
                        ("stemData", VArr [parsed (Stem "2.5" "30")]);
                        ("studentName", VStr "Asha"); ("studentRollNo", VStr "7");
                        ("studentGroup", VStr "G1")]))
         VNull (World sample_store (VStr "file:///tree.jpg") false [])).2
    = trace (World sample_store (VStr "file:///tree.jpg") false [])
      ++ [Alert "Error" (VStr message) []] /\
    (message = "Please upload an image before saving."
     \/ message = "Please enter a valid height").
Proof.
  apply (step2_payload_never_saves (VStr "T1") (VNum (Dec false 1 0))
           (VStr "Asha") (VStr "7") (VStr "G1") [Stem "2.5" "30"] initial_world).
  vm_compute. reflexivity.
Defined.

(** Two blank entries: [handleNext] of Step 2 shows two alerts, one for each
    entry, not one. *)
Lemma step2_two_failing_entries_two_alerts :
  trace
    (BranchDetailsForm.handleNext (VStr "T1") (VNum (Dec false 2 0))
       (VStr "Asha") (VStr "7") (VStr "G1") [Stem "" ""; Stem "" ""]
       initial_world).2
  = [Alert "Error" (VStr "Please enter height for Primary Stem 1") [];
     Alert "Error" (VStr "Please enter height for Primary Stem 2") []].
Proof. vm_compute. reflexivity. Qed.

(** A first entry without a diameter, a valid second entry and a third whose
    height is zero: two alerts, for entries 1 and 3. *)
Lemma step2_reports_every_failing_entry_example :
  trace
    (BranchDetailsForm.handleNext (VStr "T1") (VNum (Dec false 3 0))
       (VStr "Asha") (VStr "7") (VStr "G1")
       [Stem "2.5" " "; Stem "3" "12"; Stem "0" "4"] initial_world).2
  = trace initial_world
    ++ reports [Stem "2.5" " "; Stem "3" "12"; Stem "0" "4"] 0 /\
  reports [Stem "2.5" " "; Stem "3" "12"; Stem "0" "4"] 0
  = [Alert "Error" (VStr "Please enter diameter for Primary Stem 1") [];
     Alert "Error" (VStr "Please enter a valid height for Primary Stem 3") []].
Proof.
  split; [|vm_compute; reflexivity].
  apply (step2_reports_every_failing_entry (VStr "T1") (VNum (Dec false 3 0))
           (VStr "Asha") (VStr "7") (VStr "G1")
           [Stem "2.5" " "; Stem "3" "12"; Stem "0" "4"] initial_world);
    reflexivity.
Defined.

(** Step 1 on the texts "T1" and "3" from the default store. *)
Lemma step1_handleNext_progression_example :
  field (treeData (TreeDataForm.handleNext "T1" "3" initial_world).2) "numBranches"
  = VNum (Dec false 3 0) /\
  field (treeData (TreeDataForm.handleNext "T1" "3" initial_world).2) "stemData"
  = VArr [].
Proof.
  destruct (step1_handleNext_progression "T1" "3" initial_world)
    as (_ & _ & _ & _ & _ & H & _).
  destruct H as [H _]; [repeat split; discriminate|].
  split; [exact (H "numBranches") | exact (H "stemData")].
Defined.

(** The parameter-based component after a save that succeeded: the store is
    the default store. *)
Lemma reset_after_save_example :
  treeData
    (UploadScreenParams.handleSave
       (engine_with (Return tt) (VStr "{}") (VObj ∅) VNull)
       (VObj (object [("treeId", VStr "T1"); ("height", VStr "3");
                      ("branches", VNum (Dec false 1 0));
                      ("mainBranchDiameter", VStr "2");
                      ("branchDiameters", VArr [VStr "1"])]))
       VNull (World sample_store (VStr "file:///tree.jpg") false [])).2
  = initialTreeData.
Proof.
  destruct (reset_after_save_by_variant
              (engine_with (Return tt) (VStr "{}") (VObj ∅) VNull)
              (VObj (object [("treeId", VStr "T1"); ("height", VStr "3");
                             ("branches", VNum (Dec false 1 0));
                             ("mainBranchDiameter", VStr "2");
                             ("branchDiameters", VArr [VStr "1"])]))
              VNull (World sample_store (VStr "file:///tree.jpg") false []))
    as (H & _).
  refine (proj1 (H _ _ _ _ _ _)).
  - vm_compute. reflexivity.
  - left. reflexivity.
  - reflexivity.
Defined.

(** The parameter-based component without [branchDiameters]: one alert. *)
Lemma missing_measurements_example :
  exists message : string,
    trace
      (UploadScreenParams.handleSave
         (engine_with (Return tt) (VStr "{}") (VObj ∅) VNull)
         (VObj (object [("height", VStr "3"); ("mainBranchDiameter", VStr "2")]))
         VNull (World sample_store (VStr "file:///tree.jpg") false [])).2
    = [Alert "Error" (VStr message) []].
Proof.
  apply (proj1 (missing_measurements_by_variant
                  (engine_with (Return tt) (VStr "{}") (VObj ∅) VNull)
                  (VObj (object [("height", VStr "3");
                                 ("mainBranchDiameter", VStr "2")]))
                  VNull (World sample_store (VStr "file:///tree.jpg") false []))).
  reflexivity.
Defined.

(** ** The inputs of Step 1 and Step 2 *)

Lemma is_digit_code (c : ascii) :
  is_digit c = true -> (48 <= N_of_ascii c <= 57)%N.
Proof.
  unfold is_digit, digit_of.
  destruct ((48 <=? N_of_ascii c)%N && (N_of_ascii c <=? 57)%N) eqn:H;
    [|discriminate].
  intros _. apply andb_true_iff in H as [H1 H2].
  apply N.leb_le in H1, H2. lia.
Qed.

Lemma is_digit_not_space (c : ascii) : is_digit c = true -> is_space c = false.
Proof.
  intros H. apply is_digit_code in H. unfold is_space.
  repeat (apply orb_false_iff; split).
  - apply andb_false_iff. right. apply N.leb_gt. lia.
  - apply N.eqb_neq. lia.
  - apply N.eqb_neq. lia.
Qed.

Lemma is_digit_not_sign (c : ascii) (r : list ascii) :
  is_digit c = true -> read_sign (c :: r) = (false, c :: r).
Proof.
  intros H. apply is_digit_code in H.
  assert (Hp : c <> "+"%char) by (intros ->; simpl in H; lia).
  assert (Hm : c <> "-"%char) by (intros ->; simpl in H; lia).
  unfold read_sign.
  destruct c as [[] [] [] [] [] [] [] []]; try reflexivity; congruence.
Qed.

Lemma span_digits_all_digits (cs : list ascii) :
  forallb is_digit cs = true -> span_digits cs = (digit_values cs, []).
Proof.
  induction cs as [|c r IH]; [reflexivity|]. simpl. intros H.
  apply andb_true_iff in H as [Hc Hr]. unfold is_digit in Hc.
  unfold digit_values. simpl.
  destruct (digit_of c); [|discriminate]. rewrite (IH Hr). reflexivity.
Qed.

(** [parseInt] reads a non-empty text of digits as a whole. *)
Lemma parseInt10_digits (cs : list ascii) :
  forallb is_digit cs = true -> cs <> [] ->
  Str.parseInt10 (string_of_list_ascii cs)
  = of_decimal false (digits_value (digit_values cs)) 0.
Proof.
  intros Hall Hne. unfold Str.parseInt10.
  rewrite list_ascii_of_string_of_list_ascii.
  destruct cs as [|c r]; [congruence|].
  pose proof Hall as Hc. simpl in Hc. apply andb_true_iff in Hc as [Hc _].
  unfold trim_start at 1. rewrite (is_digit_not_space c Hc).
  rewrite (is_digit_not_sign c r Hc), (span_digits_all_digits _ Hall).
  unfold digit_values. simpl. unfold is_digit in Hc.
  destruct (digit_of c); [reflexivity | discriminate].
Qed.

Lemma forallb_filter {A : Type} (p : A -> bool) (l : list A) :
  forallb p (List.filter p l) = true.
Proof.
  induction l as [|x r IH]; [reflexivity|]. simpl.
  destruct (p x) eqn:Hp; [simpl; rewrite Hp|]; exact IH.
Qed.

(** X1.  One call of the filter of the branch-count input never refuses the
    incoming text: whatever the text is, the call sets the input to exactly
    the digits of that text, in order, the guard on [parseInt] being true for
    every text of digits.  (The effect that fills the input from the store
    writes the text too and is not covered here.) *)
Theorem onChangeNumBranches_keeps_digits (numBranches text : string) :
  TreeDataForm.onChangeNumBranches numBranches text
  = TreeDataForm.digits_only text /\
  forallb is_digit
    (list_ascii_of_string (TreeDataForm.onChangeNumBranches numBranches text))
  = true.
Proof.
  assert (H : TreeDataForm.onChangeNumBranches numBranches text
              = TreeDataForm.digits_only text).
  { unfold TreeDataForm.onChangeNumBranches.
    destruct (String.eqb_spec (TreeDataForm.digits_only text) "") as [He|Hne];
      [reflexivity|].
    unfold TreeDataForm.digits_only in *.
    rewrite parseInt10_digits, isNaN_of_decimal; [reflexivity | |].
    - apply forallb_filter.
    - intros Hnil. apply Hne. rewrite Hnil. reflexivity. }
  split; [exact H|]. rewrite H. unfold TreeDataForm.digits_only.
  rewrite list_ascii_of_string_of_list_ascii. apply forallb_filter.
Qed.

Lemma step1_handleNext_spec (treeId numBranches : string) (w : world) :
  TreeDataForm.handleNext treeId numBranches w
  = if String.eqb treeId "" || String.eqb numBranches "" then
      (Return tt,
       World (treeData w) (image w) (loading w)
         (trace w ++ [Alert "Error" (VStr "All fields are required!") []]))
    else if isNaN (Str.parseInt10 numBranches) || lt1 (Str.parseInt10 numBranches) then
      (Return tt,
       World (treeData w) (image w) (loading w)
         (trace w ++
          [Alert "Error"
             (VStr "Please enter a valid number of branches (must be at least 1)")
             []]))
    else
      (Return tt,
       World
         (spread (treeData w)
            (object [("treeId", VStr treeId);
                     ("numBranches", VNum (Str.parseInt10 numBranches));
                     ("studentName", field (treeData w) "studentName");
                     ("studentRollNo", field (treeData w) "studentRollNo");
                     ("studentGroup", field (treeData w) "studentGroup")]))
         (image w) (loading w)
         (trace w ++
          [Navigate "BranchDetailsForm"
             (VObj (object [("treeId", VStr treeId);
                            ("branches", VNum (Str.parseInt10 numBranches));
                            ("studentName", field (treeData w) "studentName");
                            ("studentRollNo", field (treeData w) "studentRollNo");
                            ("studentGroup", field (treeData w) "studentGroup")]))])).
Proof.
  unfold TreeDataForm.handleNext. rewrite !truthy_VStr, !negb_involutive.
  destruct (_ || _); [reflexivity|].
  destruct (_ || _); reflexivity.
Qed.

Lemma lt1_of_decimal_integer (m : N) :
  lt1 (of_decimal false m 0) = (m =? 0)%N.
Proof.
  destruct (N.eqb_spec m 0) as [->|Hne]; [vm_compute; reflexivity|].
  apply lt1_integer. lia.
Qed.

(** X2.  Step 1 on a text that went through the filter of the branch-count
    input, with a tree ID: an empty text gives "All fields are required!", a
    text of zeros only gives the invalid-count alert, and every other text is
    accepted with what [parseInt] makes of it: the double nearest to the
    number its digits denote, which is Infinity from [2^1024 - 2^970] on. *)
Theorem step1_on_filtered_text (treeId text : string) (w : world) :
  treeId <> "" ->
  let numBranches := TreeDataForm.digits_only text in
  let count := digits_value (digit_values (list_ascii_of_string numBranches)) in
  let r := TreeDataForm.handleNext treeId numBranches w in
  if String.eqb numBranches "" then
    trace r.2 = trace w ++ [Alert "Error" (VStr "All fields are required!") []]
    /\ treeData r.2 = treeData w
  else if (count =? 0)%N then
    trace r.2
    = trace w ++
      [Alert "Error"
         (VStr "Please enter a valid number of branches (must be at least 1)") []]
    /\ treeData r.2 = treeData w
  else
    field (treeData r.2) "numBranches" = VNum (of_decimal false count 0) /\
    exists params : value,
      trace r.2 = trace w ++ [Navigate "BranchDetailsForm" params].
Proof.
  intros Ht. cbv zeta. rewrite step1_handleNext_spec.
  apply String.eqb_neq in Ht. rewrite Ht. simpl orb.
  destruct (String.eqb_spec (TreeDataForm.digits_only text) "") as [He|Hne];
    [split; reflexivity|].
  unfold TreeDataForm.digits_only in *.
  rewrite list_ascii_of_string_of_list_ascii.
  rewrite parseInt10_digits;
    [|apply forallb_filter | intros Hnil; apply Hne; rewrite Hnil; reflexivity].
  rewrite isNaN_of_decimal, lt1_of_decimal_integer. simpl orb.
  destruct (_ =? 0)%N; [split; reflexivity|].
  cbn [snd treeData trace]. split; [|eexists; reflexivity].
  rewrite field_spread. reflexivity.
Qed.

Lemma step1_on_filtered_text_example :
  field (treeData (TreeDataForm.handleNext "T1"
                     (TreeDataForm.digits_only "1 2abc") initial_world).2)
        "numBranches"
  = VNum (Dec false 12 0).
Proof.
  pose proof (step1_on_filtered_text "T1" "1 2abc" initial_world) as H.
  cbv zeta in H. specialize (H ltac:(discriminate)).
  change (TreeDataForm.digits_only "1 2abc" =? "") with false in H.
  exact (proj1 H).
Defined.

(** X3.  [updateStemData] at an index of the list changes the named field of
    that entry and nothing else: the list keeps its length, the entry keeps
    its other field, and every other entry is what it was. *)
Theorem updateStemData_frame (stemData : list stem) (index : nat)
    (f : stem_field) (v : string) (s : stem) :
  stemData !! index = Some s ->
  exists stemData' : list stem,
    updateStemData stemData index f v = Some stemData' /\
    length stemData' = length stemData /\
    stemData' !! index
    = Some (match f with
            | Height => Stem v (stem_diameter s)
            | Diameter => Stem (stem_height s) v
            end) /\
    forall j : nat, j <> index -> stemData' !! j = stemData !! j.
Proof.
  intros Hs. unfold updateStemData. rewrite Hs. eexists. split; [reflexivity|].
  split; [apply length_insert|]. split.
  - rewrite list_lookup_insert_eq; [destruct f; reflexivity|].
    apply lookup_lt_Some in Hs. exact Hs.
  - intros j Hj. apply list_lookup_insert_ne. congruence.
Qed.

Lemma updateStemData_frame_example :
  exists stemData' : list stem,
    updateStemData [Stem "1" "2"; Stem "3" "4"] 1 Height "5" = Some stemData' /\
    length stemData' = length [Stem "1" "2"; Stem "3" "4"] /\
    stemData' !! 1%nat = Some (Stem "5" (stem_diameter (Stem "3" "4"))) /\
    forall j : nat, j <> 1%nat -> stemData' !! j = [Stem "1" "2"; Stem "3" "4"] !! j.
Proof.
  apply (updateStemData_frame [Stem "1" "2"; Stem "3" "4"] 1 Height "5"
           (Stem "3" "4")).
  reflexivity.
Defined.



Lemma forallb_Forall_true {A : Type} (p : A -> bool) (l : list A) :
  forallb p l = true <-> Forall (fun x => p x = true) l.
Proof.
  induction l as [|x r IH]; simpl.
  - split; [constructor | reflexivity].
  - rewrite andb_true_iff, IH. split.
    + intros [Hx Hr]. constructor; assumption.
    + intros H. inversion H. split; assumption.
Qed.


Lemma initial_stemData_ok (n : nat) :
  forallb entry_ok (initial_stemData n) = true
  /\ length (initial_stemData n) = n.
Proof.
  unfold initial_stemData. split.
  - induction n as [|n IH]; [reflexivity|]. simpl. exact IH.
  - rewrite length_map, repeat_length. reflexivity.
Qed.


Lemma reports_blank (n index : nat) :
  reports (initial_stemData n) index
  = map (fun i =>
           Alert "Error"
             (VStr ("Please enter height for Primary Stem "
                    +:+ nat_to_string (i + 1))) [])
        (seq index n).
Proof.
  revert index. unfold initial_stemData.
  induction n as [|n IH]; intros index; [reflexivity|].
  simpl. rewrite IH. reflexivity.
Qed.

(** X5.  Pressing Next on the form as Step 2 first shows it, for [n >= 1]
    entries: one "Please enter height" alert for each of the [n] entries, in
    order, and nothing committed. *)
Theorem step2_blank_form (treeId branches studentName studentRollNo studentGroup : value)
    (n : nat) (w : world) :
  truthy treeId = true -> truthy branches = true -> (1 <= n)%nat ->
  let r := BranchDetailsForm.handleNext treeId branches studentName
             studentRollNo studentGroup (initial_stemData n) w in
  trace r.2
  = trace w ++
    map (fun i =>
           Alert "Error"
             (VStr ("Please enter height for Primary Stem "
                    +:+ nat_to_string (i + 1))) [])
        (seq 0 n) /\
  treeData r.2 = treeData w.
Proof.
  intros Ht Hb Hn. cbv zeta. rewrite step2_handleNext_spec, Ht, Hb. simpl orb.
  cbv iota. destruct n as [|n]; [lia|].
  change (forallb passes (initial_stemData (S n))) with false. cbv iota.
  cbn [snd trace treeData]. rewrite reports_blank. split; reflexivity.
Qed.

Lemma step2_blank_form_example :
  trace (BranchDetailsForm.handleNext (VStr "T1") (VNum (Dec false 2 0))
           VUndefined VUndefined VUndefined (initial_stemData 2) initial_world).2
  = trace initial_world ++
    map (fun i =>
           Alert "Error"
             (VStr ("Please enter height for Primary Stem "
                    +:+ nat_to_string (i + 1))) [])
        (seq 0 2) /\
  treeData (BranchDetailsForm.handleNext (VStr "T1") (VNum (Dec false 2 0))
              VUndefined VUndefined VUndefined (initial_stemData 2)
              initial_world).2
  = treeData initial_world.
Proof.
  apply (step2_blank_form (VStr "T1") (VNum (Dec false 2 0))
           VUndefined VUndefined VUndefined 2 initial_world);
    [reflexivity | reflexivity | lia].
Defined.

(** ** The image pickers *)

(** X6.  [pickImage] and [takePhoto] never throw and never touch the store
    or [loading]; they either show nothing or show one alert, and when they
    show an alert the image is what it was. *)
Theorem image_pickers_frame (E : engine) (w : world)
    (r : outcome unit * world) :
  r = pickImage E w \/ r = takePhoto E w ->
  r.1 = Return tt /\ treeData r.2 = treeData w /\ loading r.2 = loading w /\
  (trace r.2 = trace w
   \/ image r.2 = image w /\
      exists title message : string,
        trace r.2 = trace w ++ [Alert title (VStr message) []]).
Proof.
  intros [-> | ->].
  - change (post (pickImage E) w
              (fun r => r.1 = Return tt /\ treeData r.2 = treeData w /\
                 loading r.2 = loading w /\
                 (trace r.2 = trace w
                  \/ image r.2 = image w /\
                     exists title message : string,
                       trace r.2 = trace w ++ [Alert title (VStr message) []]))).
    unfold pickImage.
    steps; repeat split; try reflexivity;
      first [left; reflexivity
            | right; split; [reflexivity | do 2 eexists; reflexivity]].
  - change (post (takePhoto E) w
              (fun r => r.1 = Return tt /\ treeData r.2 = treeData w /\
                 loading r.2 = loading w /\
                 (trace r.2 = trace w
                  \/ image r.2 = image w /\
                     exists title message : string,
                       trace r.2 = trace w ++ [Alert title (VStr message) []]))).
    unfold takePhoto.
    steps; repeat split; try reflexivity;
      first [left; reflexivity
            | right; split; [reflexivity | do 2 eexists; reflexivity]].
Qed.

Lemma image_pickers_frame_example :
  (pickImage (engine_with (Return tt) VNull VNull VNull) initial_world).1
  = Return tt /\
  treeData (pickImage (engine_with (Return tt) VNull VNull VNull) initial_world).2
  = treeData initial_world /\
  loading (pickImage (engine_with (Return tt) VNull VNull VNull) initial_world).2
  = loading initial_world /\
  (trace (pickImage (engine_with (Return tt) VNull VNull VNull) initial_world).2
   = trace initial_world
   \/ image (pickImage (engine_with (Return tt) VNull VNull VNull) initial_world).2
      = image initial_world /\
      exists title message : string,
        trace (pickImage (engine_with (Return tt) VNull VNull VNull)
                 initial_world).2
        = trace initial_world ++ [Alert title (VStr message) []]).
Proof.
  apply (image_pickers_frame (engine_with (Return tt) VNull VNull VNull)
           initial_world).
  left. reflexivity.
Defined.

(** X7.  What the pickers do with what the picker gave: a result that is
    cancelled changes nothing; a result that is not, whose first asset is an
    object, sets the image to that asset's [uri] and shows nothing; and
    [takePhoto] without the camera permission shows "Permission denied" and
    leaves the image alone. *)
Theorem image_pickers_results (E : engine) (w : world) (result : value) :
  nullish result = false ->
  (launchImageLibraryAsync E = Return result ->
   truthy (get_optional result "canceled") = true ->
   pickImage E w = (Return tt, w)) /\
  (forall (asset : gmap string value) (rest : list value),
     launchImageLibraryAsync E = Return result ->
     truthy (get_optional result "canceled") = false ->
     get_optional result "assets" = VArr (VObj asset :: rest) ->
     pickImage E w
     = (Return tt,
        World (treeData w) (field asset "uri") (loading w) (trace w))) /\
  (requestCameraPermissionsAsync E = Return result ->
   not_granted (get_optional result "status") = true ->
   takePhoto E w
   = (Return tt,
      World (treeData w) (image w) (loading w)
        (trace w ++
         [Alert "Permission denied"
            (VStr "Camera permission is required to take photos") []]))).
Proof.
  intros Hnn. destruct w as [td im lo tr]. split; [|split].
  - intros Hl Hc. unfold pickImage, try_catch, bind, await, get.
    rewrite Hl, Hnn. simpl. rewrite Hc. reflexivity.
  - intros asset rest Hl Hc Ha. unfold pickImage, try_catch, bind, await, get.
    rewrite Hl, Hnn. simpl. rewrite Hc, Ha. reflexivity.
  - intros Hp Hs. unfold takePhoto, try_catch, bind, await, get.
    rewrite Hp, Hnn. simpl. rewrite Hs. reflexivity.
Qed.

Lemma image_pickers_results_example :
  pickImage
    (engine_with (Return tt) VNull VNull
       (VObj (object [("canceled", VBool false);
                      ("assets",
                       VArr [VObj (object [("uri", VStr "file:///a.jpg")])])])))
    initial_world
  = (Return tt, World initialTreeData (VStr "file:///a.jpg") false []).
Proof.
  refine (proj1 (proj2 (image_pickers_results _ initial_world
            (VObj (object [("canceled", VBool false);
                           ("assets",
                            VArr [VObj (object [("uri", VStr "file:///a.jpg")])])]))
            _)) (object [("uri", VStr "file:///a.jpg")]) [] _ _ _);
    reflexivity.
Defined.

(** ** More on [handleSave] *)

(** X8.  When [handleSave] of either component gets as far as the save call
    and the service rejects with [null] or [undefined], no alert is shown:
    reading [error.message] in the [catch] block throws a [TypeError], which
    the handler passes on after setting [loading] to false.  The store and
    the image are not changed. *)
Theorem handleSave_rejection_without_error (v : variant) (E : engine)
    (params currentUser : value) (w : world) (details error : value) :
  reaches_save v E params currentUser w details ->
  saveTreeData_service E (record_of v params currentUser w details) (image w)
  = Throw error ->
  nullish error = true ->
  handleSave_of v E params currentUser w
  = (Throw (TypeError E error "message"),
     World (treeData w) (image w) false
       (trace w ++
        [SaveTreeData (record_of v params currentUser w details) (image w)])).
Proof.
  intros Hready Hsvc Hnull.
  rewrite (handleSave_rejected v E params currentUser w details error Hready Hsvc).
  unfold rejection_outcome, rejection_alerts. rewrite Hnull. reflexivity.
Qed.

(** Both components, the save service rejecting with [undefined]. *)
Lemma handleSave_rejection_without_error_example :
  handleSave_of ParameterBased
    (engine_with (Throw VUndefined) (VStr "{}") (VObj ∅) VNull)
    (VObj (object [("height", VStr "3"); ("mainBranchDiameter", VStr "2");
                   ("branchDiameters", VArr [VStr "1"])]))
    VNull (World sample_store (VStr "file:///tree.jpg") false [])
  = (Throw (error_object "TypeError" "Cannot read property message"),
     World sample_store (VStr "file:///tree.jpg") false
       [SaveTreeData
          (object [("treeId", VStr ""); ("height", VNum (Dec false 3 0));
                   ("numBranches", VNum NaN);
                   ("branchDiameters", VArr [VNum (Dec false 1 0)]);
                   ("mainBranchDiameter", VNum (Dec false 2 0));
                   ("studentName", VStr ""); ("studentRollNo", VStr "");
                   ("studentGroup", VStr ""); ("userEmail", VStr "")])
          (VStr "file:///tree.jpg")]) /\
  handleSave_of StoreBased
    (engine_with (Throw VUndefined) (VStr "{}") (VObj ∅) VNull)
    VUndefined (VObj (object [("email", VStr "a@b.c")]))
    (World sample_store (VStr "file:///tree.jpg") false [])
  = (Throw (error_object "TypeError" "Cannot read property message"),
     World sample_store (VStr "file:///tree.jpg") false
       [SaveTreeData
          (object [("treeId", VStr "T1"); ("numBranches", VNum (Dec false 1 0));
                   ("stemData", field sample_store "stemData");
                   ("studentName", VUndefined); ("studentRollNo", VUndefined);
                   ("studentGroup", VUndefined); ("userEmail", VStr "a@b.c")])
          (VStr "file:///tree.jpg")]).
Proof.
  split.
  - etransitivity; [apply (handleSave_rejection_without_error ParameterBased
             (engine_with (Throw VUndefined) (VStr "{}") (VObj ∅) VNull)
             (VObj (object [("height", VStr "3"); ("mainBranchDiameter", VStr "2");
                            ("branchDiameters", VArr [VStr "1"])]))
             VNull (World sample_store (VStr "file:///tree.jpg") false [])
             VUndefined VUndefined);
      try reflexivity;
      split; [reflexivity|]; repeat (split; [reflexivity|]);
      exists [VStr "1"]; split; [reflexivity|]; split; [discriminate | reflexivity]
    | vm_compute; reflexivity].
  - etransitivity; [apply (handleSave_rejection_without_error StoreBased
             (engine_with (Throw VUndefined) (VStr "{}") (VObj ∅) VNull)
             VUndefined (VObj (object [("email", VStr "a@b.c")]))
             (World sample_store (VStr "file:///tree.jpg") false [])
             (VObj ∅) VUndefined);
      try reflexivity;
      split; [reflexivity|]; split; [reflexivity|];
      split; [exists (VStr "{}"); repeat (split; [reflexivity|]); reflexivity|];
      repeat (split; [reflexivity|]); reflexivity
    | vm_compute; reflexivity].
Defined.

(** X9.  When [handleSave] of either component gets as far as the save call
    and the service rejects with an error that is not [null] or [undefined]
    and has no [message] (or a falsy one), the handler shows "Failed to save
    data", returns normally and leaves the store and the image as they were,
    with [loading] false. *)
Theorem handleSave_rejection_without_message (v : variant) (E : engine)
    (params currentUser : value) (w : world) (details error : value) :
  reaches_save v E params currentUser w details ->
  saveTreeData_service E (record_of v params currentUser w details) (image w)
  = Throw error ->
  nullish error = false ->
  truthy (get_optional error "message") = false ->
  handleSave_of v E params currentUser w
  = (Return tt,
     World (treeData w) (image w) false
       (trace w ++
        [SaveTreeData (record_of v params currentUser w details) (image w);
         Alert "Error" (VStr "Failed to save data") []])).
Proof.
  intros Hready Hsvc Hnull Hmsg.
  rewrite (handleSave_rejected v E params currentUser w details error Hready Hsvc).
  unfold rejection_outcome, rejection_alerts, or_else. rewrite Hnull, Hmsg.
  reflexivity.
Qed.

(** Both components, the save service rejecting with the string "offline". *)
Lemma handleSave_rejection_without_message_example :
  handleSave_of ParameterBased
    (engine_with (Throw (VStr "offline")) (VStr "{}") (VObj ∅) VNull)
    (VObj (object [("height", VStr "3"); ("mainBranchDiameter", VStr "2");
                   ("branchDiameters", VArr [VStr "1"])]))
    VNull (World sample_store (VStr "file:///tree.jpg") false [])
  = (Return tt,
     World sample_store (VStr "file:///tree.jpg") false
       [SaveTreeData
          (object [("treeId", VStr ""); ("height", VNum (Dec false 3 0));
                   ("numBranches", VNum NaN);
                   ("branchDiameters", VArr [VNum (Dec false 1 0)]);
                   ("mainBranchDiameter", VNum (Dec false 2 0));
                   ("studentName", VStr ""); ("studentRollNo", VStr "");
                   ("studentGroup", VStr ""); ("userEmail", VStr "")])
          (VStr "file:///tree.jpg");
        Alert "Error" (VStr "Failed to save data") []]) /\
  handleSave_of StoreBased
    (engine_with (Throw (VStr "offline")) (VStr "{}") (VObj ∅) VNull)
    VUndefined (VObj (object [("email", VStr "a@b.c")]))
    (World sample_store (VStr "file:///tree.jpg") false [])
  = (Return tt,
     World sample_store (VStr "file:///tree.jpg") false
       [SaveTreeData
          (object [("treeId", VStr "T1"); ("numBranches", VNum (Dec false 1 0));
                   ("stemData", field sample_store "stemData");
                   ("studentName", VUndefined); ("studentRollNo", VUndefined);
                   ("studentGroup", VUndefined); ("userEmail", VStr "a@b.c")])
          (VStr "file:///tree.jpg");
        Alert "Error" (VStr "Failed to save data") []]).
Proof.
  split.
  - etransitivity; [apply (handleSave_rejection_without_message ParameterBased
             (engine_with (Throw (VStr "offline")) (VStr "{}") (VObj ∅) VNull)
             (VObj (object [("height", VStr "3"); ("mainBranchDiameter", VStr "2");
                            ("branchDiameters", VArr [VStr "1"])]))
             VNull (World sample_store (VStr "file:///tree.jpg") false [])
             VUndefined (VStr "offline"));
      try reflexivity;
      split; [reflexivity|]; repeat (split; [reflexivity|]);
      exists [VStr "1"]; split; [reflexivity|]; split; [discriminate | reflexivity]
    | vm_compute; reflexivity].
  - etransitivity; [apply (handleSave_rejection_without_message StoreBased
             (engine_with (Throw (VStr "offline")) (VStr "{}") (VObj ∅) VNull)
             VUndefined (VObj (object [("email", VStr "a@b.c")]))
             (World sample_store (VStr "file:///tree.jpg") false [])
             (VObj ∅) (VStr "offline"));
      try reflexivity;
      split; [reflexivity|]; split; [reflexivity|];
      split; [exists (VStr "{}"); repeat (split; [reflexivity|]); reflexivity|];
      repeat (split; [reflexivity|]); reflexivity
    | vm_compute; reflexivity].
Defined.

(** X10.  In the store-based component, with an image and a user, when the
    storage holds no student details under the user's key [handleSave] shows
    "Student details not found..." and navigates to [StudentDetails]; it
    neither parses anything nor calls the save service, and [loading] is
    false afterwards. *)
Theorem handleSave_without_student_details (E : engine)
    (currentUser stored : value) (w : world) :
  truthy (image w) = true ->
  nullish currentUser = false ->
  AsyncStorage_getItem E
    ("studentDetails_" +:+ ToString (get_optional currentUser "email"))
  = Return stored ->
  truthy stored = false ->
  UploadScreenStore.handleSave E currentUser w
  = (Return tt,
     World (treeData w) (image w) false
       (trace w ++
        [Alert "Error"
           (VStr "Student details not found. Please complete student details first.")
           [];
         Navigate "StudentDetails" VUndefined])).
Proof.
  intros Himg Hcu Hget Hst.
  unfold UploadScreenStore.handleSave, try_finally, try_catch, bind, get,
    read_image, read_treeData, setLoading.
  cbn [image treeData loading trace]. rewrite Himg, Hcu. simpl.
  unfold await. rewrite Hget, Hst. simpl.
  rewrite app_singleton_assoc. reflexivity.
Qed.

Lemma handleSave_without_student_details_example :
  UploadScreenStore.handleSave
    (engine_with (Return tt) VNull VNull VNull)
    (VObj (object [("email", VStr "a@b.c")]))
    (World sample_store (VStr "file:///tree.jpg") false [])
  = (Return tt,
     World sample_store (VStr "file:///tree.jpg") false
       ([] ++
        [Alert "Error"
           (VStr "Student details not found. Please complete student details first.")
           [];
         Navigate "StudentDetails" VUndefined])).
Proof.
  apply (handleSave_without_student_details
           (engine_with (Return tt) VNull VNull VNull)
           (VObj (object [("email", VStr "a@b.c")])) VNull
           (World sample_store (VStr "file:///tree.jpg") false []));
    reflexivity.
Defined.

Lemma first_unparsed_spec (l : list value) (start i : nat) :
  UploadScreenParams.first_unparsed l start = Some i ->
  (start <= i)%nat /\
  (exists d : value, l !! (i - start)%nat = Some d /\ isNaN (parseFloat d) = true) /\
  forall (j : nat) (d : value),
    (j < i - start)%nat -> l !! j = Some d -> isNaN (parseFloat d) = false.
Proof.
  revert start. induction l as [|x r IH]; intros start; simpl; [discriminate|].
  destruct (isNaN (parseFloat x)) eqn:Hx.
  - intros [= <-]. split; [lia|]. rewrite Nat.sub_diag. split.
    + exists x. split; [reflexivity | exact Hx].
    + intros j d Hj. lia.
  - intros H. destruct (IH _ H) as (Hle & (d & Hd & Hnan) & Hbefore).
    split; [lia|].
    replace (i - start)%nat with (S (i - S start)) by lia. split.
    + exists d. split; [exact Hd | exact Hnan].
    + intros [|j] d' Hj Hd'.
      * injection Hd' as <-. exact Hx.
      * apply (Hbefore j d'); [lia | exact Hd'].
Qed.

(** X11.  In the parameter-based component, with an image, a height and a
    main branch diameter that [parseFloat] reads, and an array of branch
    diameters some of which it does not read, [handleSave] stops at the first
    such element: it shows one alert that names the 1-based position of the
    least index whose element is not read, and does not call the save
    service. *)
Theorem handleSave_first_unparsed_diameter (E : engine)
    (params currentUser : value) (w : world) (diameters : list value) (i : nat) :
  truthy (image w) = true ->
  truthy (UploadScreenParams.param params "height") = true ->
  isNaN (parseFloat (UploadScreenParams.param params "height")) = false ->
  truthy (UploadScreenParams.param params "mainBranchDiameter") = true ->
  isNaN (parseFloat (UploadScreenParams.param params "mainBranchDiameter")) = false ->
  UploadScreenParams.param params "branchDiameters" = VArr diameters ->
  UploadScreenParams.first_unparsed diameters 0 = Some i ->
  UploadScreenParams.handleSave E params currentUser w
  = (Return tt,
     World (treeData w) (image w) false
       (trace w ++
        [Alert "Error"
           (VStr ("Please enter a valid diameter for branch "
                  +:+ nat_to_string (i + 1))) []])) /\
  (exists d : value,
     diameters !! i = Some d /\ isNaN (parseFloat d) = true) /\
  forall (j : nat) (d : value),
    (j < i)%nat -> diameters !! j = Some d -> isNaN (parseFloat d) = false.
Proof.
  intros Himg Hh Hhn Hm Hmn Hbd Hfirst.
  destruct (first_unparsed_spec diameters 0 i Hfirst) as (_ & Hat & Hbefore).
  rewrite Nat.sub_0_r in Hat, Hbefore. split; [|split; assumption].
  unfold UploadScreenParams.handleSave, try_finally, try_catch, bind,
    read_image, read_treeData, setLoading.
  cbn [image treeData loading trace]. rewrite Himg, Hh, Hhn, Hm, Hmn, Hbd.
  simpl. destruct diameters as [|d0 ds]; [discriminate|].
  simpl length. cbv beta iota. simpl negb. simpl orb.
  change (elements (VArr (d0 :: ds))) with (d0 :: ds).
  rewrite Hfirst. reflexivity.
Qed.

Lemma handleSave_first_unparsed_diameter_example :
  UploadScreenParams.handleSave
    (engine_with (Return tt) VNull VNull VNull)
    (VObj (object [("height", VStr "3"); ("mainBranchDiameter", VStr "2");
                   ("branchDiameters", VArr [VStr "1"; VStr "x"; VStr "y"])]))
    VNull (World sample_store (VStr "file:///tree.jpg") false [])
  = (Return tt,
     World sample_store (VStr "file:///tree.jpg") false
       ([] ++
        [Alert "Error"
           (VStr ("Please enter a valid diameter for branch "
                  +:+ nat_to_string (1 + 1))) []])).
Proof.
  refine (proj1 (handleSave_first_unparsed_diameter
            (engine_with (Return tt) VNull VNull VNull)
            (VObj (object [("height", VStr "3"); ("mainBranchDiameter", VStr "2");
                           ("branchDiameters",
                            VArr [VStr "1"; VStr "x"; VStr "y"])]))
            VNull (World sample_store (VStr "file:///tree.jpg") false [])
            [VStr "1"; VStr "x"; VStr "y"] 1 _ _ _ _ _ _ _));
    reflexivity.
Defined.

(** X12.  Successive updates of the store amount to one update with the later
    record merged over the earlier one, an update with the same record twice
    is the same as once, and a reset makes every earlier update invisible. *)
Theorem store_updates_compose (a b : gmap string value) (w : world) :
  (updateTreeData b (updateTreeData a w).2).2
  = (updateTreeData (spread a b) w).2 /\
  (updateTreeData a (updateTreeData a w).2).2 = (updateTreeData a w).2 /\
  (resetTreeData (updateTreeData a w).2).2 = (resetTreeData w).2 /\
  (updateTreeData ∅ w).2 = w.
Proof.
  destruct w as [td im lo tr]. unfold updateTreeData, resetTreeData, setTreeData, spread.
  cbn [snd treeData image loading trace].
  repeat split; f_equal.
  - apply (assoc_L (∪)).
  - rewrite (assoc_L (∪)). f_equal. apply (idemp_L (∪)).
  - apply (left_id_L ∅ (∪)).
Qed.

Lemma truthy_count (n : nat) :
  (1 <= n)%nat -> truthy (VNum (of_decimal false (N.of_nat n) 0)) = true.
Proof.
  intros H. destruct (of_decimal_integer (N.of_nat n)) as [-> | ->]; [lia | reflexivity |].
  unfold truthy, Num.truthy, isNaN, is_zero.
  rewrite underflows_integer by lia. reflexivity.
Qed.

Ltac decide_conditions :=
  repeat match goal with
         | H : negb _ = true |- _ => apply negb_true_iff in H
         | H : negb _ = false |- _ => apply negb_false_iff in H
         | H : _ || _ = false |- _ => apply orb_false_iff in H as [? ?]
         | H : _ || _ = true |- _ => apply orb_true_iff in H as [H | H]
         end.

(** X13.  The whole wizard with the store-based upload screen: Step 1 with a
    tree ID and the text of a count [n >= 1], Step 2 with the parameters
    Step 1 navigated with and entries that all pass, an image, and stored
    student details that parse.  The save service is then called with the
    tree ID that was typed, the count, the parsed entries in order, the
    student name of the stored details and the user's email. *)
Theorem wizard_store_based_end_to_end (E : engine) (treeId : string) (n : nat)
    (stems : list stem) (img currentUser stored details : value) (w0 : world) :
  treeId <> "" -> (1 <= n)%nat -> forallb passes stems = true ->
  truthy img = true -> nullish currentUser = false ->
  AsyncStorage_getItem E
    ("studentDetails_" +:+ ToString (get_optional currentUser "email"))
  = Return stored ->
  truthy stored = true ->
  JSON_parse E (ToString stored) = Return details ->
  nullish details = false ->
  let count := VNum (of_decimal false (N.of_nat n) 0) in
  let w1 := (TreeDataForm.handleNext treeId (nat_to_string n) w0).2 in
  let w2 := (BranchDetailsForm.handleNext (VStr treeId) count
               (field (treeData w0) "studentName")
               (field (treeData w0) "studentRollNo")
               (field (treeData w0) "studentGroup") stems w1).2 in
  let w3 := (setImage img w2).2 in
  let r := UploadScreenStore.handleSave E currentUser w3 in
  trace w1
  = trace w0 ++
    [Navigate "BranchDetailsForm"
       (VObj (object [("treeId", VStr treeId); ("branches", count);
                      ("studentName", field (treeData w0) "studentName");
                      ("studentRollNo", field (treeData w0) "studentRollNo");
                      ("studentGroup", field (treeData w0) "studentGroup")]))] /\
  exists (data : gmap string value) (rest : list event),
    trace r.2 = trace w3 ++ SaveTreeData data img :: rest /\
    field data "treeId" = VStr treeId /\
    field data "numBranches" = count /\
    field data "stemData" = VArr (map parsed stems) /\
    field data "studentName" = get_optional details "studentName" /\
    field data "userEmail" = get_optional currentUser "email".
Proof.
  intros Ht Hn Hpass Himg Hcu Hget Hstored Hparse Hdetails. cbv zeta.
  rewrite step1_handleNext_spec, parseInt10_nat_to_string.
  apply String.eqb_neq in Ht. rewrite Ht.
  rewrite (proj2 (String.eqb_neq _ _) (nat_to_string_not_empty n)).
  rewrite isNaN_of_decimal, lt1_integer by lia. simpl orb. cbv iota.
  cbn [snd trace]. split; [reflexivity|].
  rewrite step2_handleNext_spec, truthy_VStr, Ht, (truthy_count n Hn), Hpass.
  simpl negb. simpl orb. cbv iota.
  unfold setImage. cbn [snd treeData image loading trace].
  match goal with
  | |- context [World ?t img _ _] =>
      assert (Hid : field t "treeId" = VStr treeId)
        by (rewrite field_spread; reflexivity);
      assert (Hnum : field t "numBranches"
                     = VNum (of_decimal false (N.of_nat n) 0))
        by (rewrite field_spread; reflexivity);
      assert (Hsd : field t "stemData" = VArr (map parsed stems))
        by (rewrite field_spread; reflexivity);
      generalize dependent t; intros td Hid Hnum Hsd
  end.
  match goal with
  | |- context [World td img ?l ?t] =>
      generalize t; intros tr; generalize l; intros lo
  end.
  change (post (UploadScreenStore.handleSave E currentUser) (World td img lo tr)
            (fun r => exists (data : gmap string value) (rest : list event),
               trace r.2 = tr ++ SaveTreeData data img :: rest /\
               field data "treeId" = VStr treeId /\
               field data "numBranches" = VNum (of_decimal false (N.of_nat n) 0) /\
               field data "stemData" = VArr (map parsed stems) /\
               field data "studentName" = get_optional details "studentName" /\
               field data "userEmail" = get_optional currentUser "email")).
  unfold UploadScreenStore.handleSave.
  steps; decide_conditions; rewrite ?Hsd in *; try discriminate; try congruence;
    match goal with
    | H : JSON_parse E _ = Return ?d |- _ =>
        assert (d = details) by congruence; subst d
    end;
    rewrite ?app_singleton_assoc, <- ?app_assoc;
    (eexists; eexists; split; [reflexivity|]);
    repeat split; first [exact Hid | exact Hnum | exact Hsd | reflexivity].
Qed.

Lemma wizard_store_based_end_to_end_example :
  let E := engine_with (Return tt) (VStr "{}")
             (VObj (object [("studentName", VStr "Asha")])) VNull in
  let currentUser := VObj (object [("email", VStr "a@b.c")]) in
  let img := VStr "file:///tree.jpg" in
  let w1 := (TreeDataForm.handleNext "T1" (nat_to_string 1) initial_world).2 in
  let w2 := (BranchDetailsForm.handleNext (VStr "T1")
               (VNum (of_decimal false (N.of_nat 1) 0))
               (field (treeData initial_world) "studentName")
               (field (treeData initial_world) "studentRollNo")
               (field (treeData initial_world) "studentGroup")
               [Stem "2.5" "30"] w1).2 in
  let w3 := (setImage img w2).2 in
  exists (data : gmap string value) (rest : list event),
    trace (UploadScreenStore.handleSave E currentUser w3).2
    = trace w3 ++ SaveTreeData data img :: rest /\
    field data "treeId" = VStr "T1" /\
    field data "numBranches" = VNum (of_decimal false (N.of_nat 1) 0) /\
    field data "stemData" = VArr (map parsed [Stem "2.5" "30"]) /\
    field data "studentName"
    = get_optional (VObj (object [("studentName", VStr "Asha")])) "studentName" /\
    field data "userEmail" = get_optional currentUser "email".
Proof.
  intros E currentUser img w1 w2 w3.
  refine (proj2 (wizard_store_based_end_to_end E "T1" 1 [Stem "2.5" "30"] img
                   currentUser (VStr "{}")
                   (VObj (object [("studentName", VStr "Asha")]))
                   initial_world _ _ _ _ _ _ _ _ _));
    first [discriminate | lia | reflexivity].
Defined.

Lemma passes_positive (s : stem) : passes s = true -> positive_entry (parsed s).
Proof.
  unfold passes, first_failing_check, positive_entry, parsed.
  destruct (_ || _); [discriminate|].
  destruct (_ || _); [discriminate|].
  destruct (isNaN (Str.parseFloat (stem_height s)) || _) eqn:Hh; [discriminate|].
  destruct (isNaN (Str.parseFloat (stem_diameter s)) || _) eqn:Hd; [discriminate|].
  intros _.
  apply orb_false_iff in Hh as [Hh1 Hh2]. apply orb_false_iff in Hd as [Hd1 Hd2].
  do 2 eexists. repeat split; first [reflexivity | eassumption].
Qed.

(** X14.  What Step 2 commits: when [handleNext] accepts, the store's
    [stemData] has one entry for each entry of the form, in order, and every
    one of them holds a height and a diameter that are numbers above zero. *)
Theorem step2_commits_positive_numbers
    (treeId branches studentName studentRollNo studentGroup : value)
    (stemData : list stem) (w : world) :
  truthy treeId = true -> truthy branches = true ->
  forallb passes stemData = true ->
  let r := BranchDetailsForm.handleNext treeId branches studentName
             studentRollNo studentGroup stemData w in
  exists entries : list value,
    field (treeData r.2) "stemData" = VArr entries /\
    length entries = length stemData /\
    Forall positive_entry entries.
Proof.
  intros Ht Hb Hall. cbv zeta. rewrite step2_handleNext_spec, Ht, Hb, Hall.
  simpl. exists (map parsed stemData). split; [|split].
  - rewrite field_spread. reflexivity.
  - apply length_map.
  - apply Forall_map. apply forallb_Forall_true in Hall.
    eapply Forall_impl; [exact Hall|]. intros s Hs. apply passes_positive, Hs.
Qed.

Lemma step2_commits_positive_numbers_example :
  exists entries : list value,
    field
      (treeData
         (BranchDetailsForm.handleNext (VStr "T1") (VNum (Dec false 2 0))
            VUndefined VUndefined VUndefined
            [Stem "2.5" "30"; Stem " 7" "1e1"] initial_world).2) "stemData"
    = VArr entries /\
    length entries = length [Stem "2.5" "30"; Stem " 7" "1e1"] /\
    Forall positive_entry entries.
Proof.
  apply (step2_commits_positive_numbers (VStr "T1") (VNum (Dec false 2 0))
           VUndefined VUndefined VUndefined
           [Stem "2.5" "30"; Stem " 7" "1e1"] initial_world);
    reflexivity.
Defined.

(** ** The parsers and [ToString] on sample inputs *)

Example parseFloat_12_5 : Str.parseFloat "12.5" = Dec false 125 (-1).
Proof. vm_compute. reflexivity. Qed.

Example parseFloat_tests :
  Str.parseFloat "  -3e2x" = Dec true 3 2 /\ Str.parseFloat "." = NaN /\
  Str.parseFloat "5." = Dec false 5 0 /\ Str.parseFloat ".5" = Dec false 5 (-1) /\
  Str.parseFloat "abc" = NaN /\ Str.parseFloat "" = NaN /\
  Str.parseFloat "1e" = Dec false 1 0 /\ Str.parseFloat "Infinityx" = Infinity false /\
  Str.parseFloat "1e400" = Infinity false /\ Str.parseFloat "1e-400" = Dec false 0 0 /\
  le0 (Str.parseFloat "0") = true /\ le0 (Str.parseFloat "0.01") = false.
Proof. vm_compute. repeat split; reflexivity. Qed.

Example parseInt10_tests :
  Str.parseInt10 "3" = Dec false 3 0 /\ Str.parseInt10 "3abc" = Dec false 3 0 /\
  Str.parseInt10 "abc" = NaN /\ Str.parseInt10 " 12" = Dec false 12 0 /\
  lt1 (Str.parseInt10 "0") = true /\ lt1 (Str.parseInt10 "1") = false /\
  lt1 (Str.parseInt10 "-4") = true /\ trim "  a b  " = "a b".
Proof. vm_compute. repeat split; reflexivity. Qed.

Example ToString_tests :
  ToString (VNum (Dec false 125 (-1))) = "12.5" /\
  ToString (VNum (Dec false 3 0)) = "3" /\
  ToString (VNum (Dec false 1200 0)) = "1200" /\
  ToString (VNum (Dec false 1 21)) = "1e+21" /\
  ToString (VNum (Dec true 5 (-7))) = "-5e-7" /\
  ToString (VNum (Dec false 15 (-3))) = "0.015" /\
  ToString (VNum (Dec false 123456 (-9))) = "0.000123456" /\
  ToString (VNum (Dec false 125 20)) = "1.25e+22" /\
  ToString (VArr [VNum (Dec false 5 0); VNull; VStr "a"]) = "5,,a" /\
  nat_to_string 0 = "0" /\ nat_to_string 12 = "12" /\
  Conv.parseInt10 (VNum (Dec false 5 (-7))) = Dec false 5 0 /\
  Conv.parseFloat (VArr [VStr " 2.50"; VNum NaN]) = Dec false 250 (-2).
Proof. vm_compute. repeat split; reflexivity. Qed.
